(** * The DeepLabCut workshop notebook, as a state-passing program

    A model of the code cells of [deeplabcut_workshop_tutorial.ipynb]:
    Python values, the exceptions the cells can meet, the file system the
    cells read and write, and the calls they make into external libraries
    (DeepLabCut, PyYAML, matplotlib, PIL, OpenCV, mpld3, IPython).
    The libraries are not part of the repository: their behaviour is a
    parameter of the model (a [library] record of oracles), and every
    statement below is proved for all libraries unless it says otherwise. *)

From stdpp Require Import gmap strings list fin_maps pretty.

Set Warnings "-register-all".

Local Open Scope string_scope.
Local Open Scope Z_scope.

(** ** Python values *)

Module Py.

(** Keys of a dictionary.  A [bool] key hashes and compares like the
    integers 0 and 1 in Python, so it is a [KInt]. *)
Inductive key :=
  | KStr (s : string)
  | KInt (n : Z)
  | KNone.

#[global] Instance key_eq_dec : EqDecision key.
Proof. solve_decision. Defined.

Definition key_to_sum (k : key) : string + Z + unit :=
  match k with
  | KStr s => inl (inl s)
  | KInt n => inl (inr n)
  | KNone => inr tt
  end.

Definition key_of_sum (x : string + Z + unit) : key :=
  match x with
  | inl (inl s) => KStr s
  | inl (inr n) => KInt n
  | inr _ => KNone
  end.

#[global] Instance key_countable : Countable key.
Proof.
  apply (inj_countable' key_to_sum key_of_sum).
  intros []; reflexivity.
Defined.

(** The values the cells handle.  [VObj] stands for an object owned by a
    library (a figure, an axes, an image, a video capture, a frame, a
    float or a date built by the YAML loader): the cells only pass such
    objects on. *)
Inductive value :=
  | VNone
  | VBool (b : bool)
  | VInt (n : Z)
  | VStr (s : string)
  | VList (l : list value)
  | VTuple (l : list value)
  | VDict (d : gmap key value)
  | VFile (path : string)
  | VObj (handle : N).

(** Exceptions.  [LibError] carries the class name of an exception that a
    library defines (yaml.YAMLError, cv2.error, ...). *)
Inductive exn :=
  | FileNotFoundError (path : string)
  | TypeError
  | ValueError
  | AttributeError
  | KeyboardInterrupt
  | LibError (cls : string).

Inductive result (A : Type) :=
  | Ok (a : A)
  | Raise (e : exn).
Arguments Ok {A} a.
Arguments Raise {A} e.

Definition is_ok {A} (r : result A) : bool :=
  match r with Ok _ => true | Raise _ => false end.

(** A call into a library: the dotted name of the callee, the positional
    arguments and the keyword arguments.  A method call [o.m(a)] is the
    call of [".m"] with [o] as first argument. *)
Record call := Call {
  fn : string;
  args : list value;
  kwargs : list (string * value)
}.

(** What the libraries do.  [yaml_safe_load] parses the text of a stream.
    [yaml_dump] returns the text it emitted to the stream and, when it
    failed, the exception raised after emitting it.  [extern] is any other
    call: it may change the file system, and returns or raises. *)
Record library := Library {
  yaml_safe_load : string -> result value;
  yaml_dump : value -> string * option exn;
  extern : call -> gmap string string -> gmap string string * result value
}.

(** The outcome of running a piece of notebook code: the file system it
    leaves, its trace (the library calls it made, in order, each with what
    the library returned or raised), and its result. *)
Record outcome (A : Type) := Outcome {
  fs : gmap string string;
  trace : list (call * result value);
  res : result A
}.
Arguments Outcome {A} fs trace res.
Arguments fs {A} o.
Arguments trace {A} o.
Arguments res {A} o.

(** The calls of an outcome, without the responses. *)
Definition calls {A} (o : outcome A) : list call := (trace o).*1.

Definition M (A : Type) : Type := gmap string string -> outcome A.

Definition ret {A} (a : A) : M A := fun f => Outcome f [] (Ok a).

Definition raise {A} (e : exn) : M A := fun f => Outcome f [] (Raise e).

(** Sequencing: an exception in the first part skips the rest; what the
    first part did to the files and the calls it made remain. *)
Definition bind {A B} (m : M A) (k : A -> M B) : M B := fun f =>
  let o := m f in
  match res o with
  | Ok a => let o' := k a (fs o) in Outcome (fs o') (trace o ++ trace o') (res o')
  | Raise e => Outcome (fs o) (trace o) (Raise e)
  end.

Module Import Notations.
  Notation "x <- m ;; k" := (bind m (fun x => k))
    (at level 100, m at next level, right associativity).
  Notation "m ;;; k" := (bind m (fun _ => k))
    (at level 100, right associativity).
End Notations.

(** *** Library calls *)

(** A library call does what the library does, and enters the trace. *)
Definition extern_call (L : library) (c : call) : M value := fun f =>
  Outcome (extern L c f).1 [(c, (extern L c f).2)] (extern L c f).2.

(** [o.name(args, kwargs)] *)
Definition method (L : library) (o : value) (name : string)
    (a : list value) (kw : list (string * value)) : M value :=
  extern_call L (Call ("." +:+ name) (o :: a) kw).

(** [module.name], an attribute that a library defines. *)
Definition attr (L : library) (dotted : string) : M value :=
  extern_call L (Call "getattr" [VStr dotted] []).

(** [import module] and [from module import names]. *)
Definition import_ (L : library) (module : string) : M unit :=
  extern_call L (Call "__import__" [VStr module] []) ;;; ret tt.

Definition from_import (L : library) (module : string) (names : list string) : M unit :=
  extern_call L (Call "__import__" [VStr module] [("fromlist", VList (VStr <$> names))]) ;;;
  ret tt.

(** [!cmd] and [%magic arg] of IPython. *)
Definition shell (L : library) (cmd : string) : M unit :=
  extern_call L (Call "!" [VStr cmd] []) ;;; ret tt.

Definition magic (L : library) (name arg : string) : M unit :=
  extern_call L (Call ("%" +:+ name) [VStr arg] []) ;;; ret tt.

Definition print (L : library) (a : list value) : M unit :=
  extern_call L (Call "print" a []) ;;; ret tt.

(** *** Built-in operations *)

(** The replacement field [{x}] of an f-string: [str] for the built-in
    types, the object's own [__format__] otherwise. *)
Definition format (L : library) (v : value) : M string :=
  match v with
  | VStr s => ret s
  | VInt n => ret (pretty n)
  | VBool b => ret (if b then "True" else "False")
  | VNone => ret "None"
  | _ => r <- extern_call L (Call "format" [v] []) ;;
         match r with VStr s => ret s | _ => raise TypeError end
  end.

(** [open(path, 'r')]: the file must exist. *)
Definition open_r (path : string) : M value := fun f =>
  match f !! path with
  | Some _ => Outcome f [] (Ok (VFile path))
  | None => Outcome f [] (Raise (FileNotFoundError path))
  end.

(** [open(path, 'w')]: the file is created, or truncated when it exists. *)
Definition open_w (path : string) : M value := fun f =>
  Outcome (<[path := ""]> f) [] (Ok (VFile path)).

(** [with open(...) as file: body]: leaving the block closes the file and
    lets an exception of the body through. *)
Definition with_ {A} (opened : M value) (body : value -> M A) : M A :=
  file <- opened ;; body file.

(** [yaml.safe_load(stream)]: the whole stream is read, then parsed. *)
Definition safe_load (L : library) (stream : value) : M value := fun f =>
  let c := Call "yaml.safe_load" [stream] [] in
  let r := match stream with
           | VFile path =>
               match f !! path with
               | Some text => yaml_safe_load L text
               | None => Raise ValueError
               end
           | VStr text => yaml_safe_load L text
           | _ => Raise AttributeError
           end in
  Outcome f [(c, r)] r.

(** [yaml.dump(data, stream)]: what the dumper emits is appended to the
    stream, also when it raises afterwards. *)
Definition dump (L : library) (data stream : value) : M value := fun f =>
  let c := Call "yaml.dump" [data; stream] [] in
  match stream with
  | VFile path =>
      let r := match (yaml_dump L data).2 with None => Ok VNone | Some e => Raise e end in
      Outcome (<[path := default "" (f !! path) +:+ (yaml_dump L data).1]> f) [(c, r)] r
  | _ => Outcome f [(c, Raise AttributeError)] (Raise AttributeError)
  end.

(** [o[k] = v]: only a dictionary among the values of the model takes an
    item assignment with a string key. *)
Definition setitem (o : value) (k : key) (v : value) : M value :=
  match o with
  | VDict d => ret (VDict (<[k := v]> d))
  | _ => raise TypeError
  end.

Definition chars (s : string) : list value :=
  (fun a => VStr (String a "")) <$> String.list_ascii_of_string s.

(** Iteration: lists, tuples and strings are iterated here; an object asks
    its library. *)
Definition iter (L : library) (v : value) : M (list value) :=
  match v with
  | VList l | VTuple l => ret l
  | VStr s => ret (chars s)
  | VNone | VBool _ | VInt _ => raise TypeError
  | _ => r <- extern_call L (Call "iter" [v] []) ;;
         match r with VList l => ret l | _ => raise TypeError end
  end.

(** [a, b = v] *)
Definition unpack2 (L : library) (v : value) : M (value * value) :=
  l <- iter L v ;;
  match l with
  | [a; b] => ret (a, b)
  | _ => raise ValueError
  end.

(** [zip(xs, ys, zs)] stops at the shortest. *)
Fixpoint zip3 {A B C} (xs : list A) (ys : list B) (zs : list C) : list (A * B * C) :=
  match xs, ys, zs with
  | x :: xs, y :: ys, z :: zs => (x, y, z) :: zip3 xs ys zs
  | _, _, _ => []
  end.

(** [for x in l: body] *)
Fixpoint for_ {A} (l : list A) (body : A -> M unit) : M unit :=
  match l with
  | [] => ret tt
  | x :: l => body x ;;; for_ l body
  end.

(** A statement whose value is dropped. *)
Definition stmt {A} (m : M A) : M unit := m ;;; ret tt.

(** Cells run one after the other; a cell that raises stops the run. *)
Fixpoint run (cells : list (M unit)) : M unit :=
  match cells with
  | [] => ret tt
  | c :: cells => c ;;; run cells
  end.

(** The library answers [r] to the call [c] on the files [f] and leaves
    the files [f']. *)
Definition responds (L : library) (c : call) (f : gmap string string)
    (r : result value) (f' : gmap string string) : Prop :=
  extern L c f = (f', r).

End Py.

Import Py Py.Notations.

(** ** The notebook *)

Module Notebook.

(** The variables a participant sets: [ProjectFolderName] and [VideoType]
    in the configuration cell, [shuffle] in the pose_cfg cell. *)
Record settings := Settings {
  ProjectFolderName : string;
  VideoType : string;
  shuffle : Z
}.

(** The values the notebook ships with. *)
Definition shipped : settings :=
  {| ProjectFolderName := "workshop-network-2025"; VideoType := "mp4"; shuffle := 1 |}.

Definition dq : string := String (Ascii.ascii_of_nat 34) "".

(** *** Names computed by the cells *)

Definition source_folder : string :=
  "/content/drive/MyDrive/behavior-and-calcium-imaging-workshop".

Definition destination_folder : string :=
  "/content/behavior-and-calcium-imaging-workshop".

Definition videofile_path : value :=
  VList [VStr "/content/behavior-and-calcium-imaging-workshop/data/behavior-videos"].

Definition path_config_file (s : settings) : string :=
  "/content/behavior-and-calcium-imaging-workshop/" +:+ ProjectFolderName s +:+ "/config.yaml".

Definition pose_cfg_path (s : settings) : string :=
  "/content/behavior-and-calcium-imaging-workshop/" +:+ ProjectFolderName s +:+
  "/dlc-models/iteration-5/ss_vs_sscwJan30-trainset95shuffle" +:+ pretty (shuffle s) +:+
  "/train/pose_cfg.yaml".

Definition checkpoint (s : settings) : string :=
  "/content/behavior-and-calcium-imaging-workshop/" +:+ ProjectFolderName s +:+
  "/old_dlc-models/iteration-5/ss_vs_sscwJan30-trainset95shuffle2/train/snapshot-100000".

Definition root : string :=
  "/content/behavior-and-calcium-imaging-workshop/data/behavior-videos/plot-poses/day0croppedshortdownsampled".

Definition plot_likelihood_path : string := root +:+ "/plot-likelihood.png".
Definition hist_path : string := root +:+ "/hist.png".
Definition plot_path : string := root +:+ "/plot.png".
Definition trajectory_path : string := root +:+ "/trajectory.png".

Definition images : list string :=
  [plot_likelihood_path; hist_path; plot_path; trajectory_path].

Definition titles : list string :=
  ["Plot Likelihood"; "Histogram"; "Plot"; "Trajectory"].

Definition labelled_video_path (s : settings) : string :=
  "/content/behavior-and-calcium-imaging-workshop/data/behavior-videos/day0croppedshortdownsampledDLC_resnet50_ss_vs_sscwJan30shuffle" +:+
  pretty (shuffle s) +:+ "_100100_p60_labeled.mp4".

(** *** The six DeepLabCut calls *)

Definition create_training_dataset_call (s : settings) : call :=
  Call "deeplabcut.create_training_dataset" [VStr (path_config_file s)]
       [("net_type", VStr "resnet_50"); ("augmenter_type", VStr "imgaug")].

Definition train_network_call (s : settings) : call :=
  Call "deeplabcut.train_network" [VStr (path_config_file s)]
       [("shuffle", VInt (shuffle s)); ("displayiters", VInt 10);
        ("saveiters", VInt 50); ("maxiters", VInt 100)].

Definition evaluate_network_call (s : settings) : call :=
  Call "deeplabcut.evaluate_network" [VStr (path_config_file s)]
       [("plotting", VBool true); ("Shuffles", VTuple [VInt (shuffle s)])].

Definition analyze_videos_call (s : settings) : call :=
  Call "deeplabcut.analyze_videos" [VStr (path_config_file s); videofile_path]
       [("videotype", VStr (VideoType s)); ("shuffle", VInt (shuffle s))].

Definition plot_trajectories_call (s : settings) : call :=
  Call "deeplabcut.plot_trajectories" [VStr (path_config_file s); videofile_path]
       [("videotype", VStr (VideoType s)); ("shuffle", VInt (shuffle s))].

Definition create_labeled_video_call (s : settings) : call :=
  Call "deeplabcut.create_labeled_video" [VStr (path_config_file s); videofile_path]
       [("videotype", VStr (VideoType s)); ("shuffle", VInt (shuffle s))].

Section Cells.

Context (L : library) (s : settings).

(** *** The code cells, in the order of the notebook *)

Definition install_cell : M unit :=
  shell L ("pip install " +:+ dq +:+ "tensorflow==2.12.1" +:+ dq +:+ " " +:+
           dq +:+ "tensorpack>=0.11" +:+ dq +:+ " " +:+ dq +:+ "tf_slim>=1.1.0" +:+ dq) ;;;
  shell L "pip install torch==2.3.1 torchvision --index-url https://download.pytorch.org/whl/cu118" ;;;
  shell L ("pip install " +:+ dq +:+ "git+https://github.com/DeepLabCut/DeepLabCut.git" +:+ dq) ;;;
  shell L "ln -svf /usr/local/lib/python3.11/dist-packages/nvidia/*/lib/*.so* /usr/local/lib/python3.11/dist-packages/tensorflow".

Definition gpu_check_cell : M unit :=
  import_ L "tensorflow" ;;;
  import_ L "torch" ;;;
  v <- attr L "torch.__version__" ;;
  t <- format L v ;;
  a <- extern_call L (Call "torch.cuda.is_available" [] []) ;;
  print L [VStr ("Torch " +:+ t +:+ "    "); a] ;;;
  z <- extern_call L (Call "torch.zeros" [VInt 5] [("device", VStr "cuda:0")]) ;;
  t <- format L z ;;
  print L [VStr t] ;;;
  v <- attr L "tf.__version__" ;;
  t <- format L v ;;
  g <- extern_call L (Call "tf.config.list_physical_devices" [VStr "GPU"] []) ;;
  print L [VStr ("TensorFlow " +:+ t +:+ "    "); g].

Definition drive_cell : M unit :=
  from_import L "google.colab" ["drive"] ;;;
  import_ L "shutil" ;;;
  extern_call L (Call "drive.mount" [VStr "/content/drive"] []) ;;;
  extern_call L (Call "shutil.copytree" [VStr source_folder; VStr destination_folder] []) ;;;
  print L [VStr "Files copied successfully!"].

(** The cell that assigns [ProjectFolderName], [VideoType] and
    [videofile_path]; its value is the last expression. *)
Definition variables_cell : M value := ret videofile_path.

Definition import_cell : M unit :=
  import_ L "deeplabcut" ;;;
  v <- attr L "deeplabcut.__version__" ;;
  print L [VStr "DeepLabCut version:"; v].

Definition path_cell : M value := ret (VStr (path_config_file s)).

Definition create_training_dataset_cell : M value :=
  extern_call L (create_training_dataset_call s).

(** The read-modify-write of pose_cfg.yaml. *)
Definition pose_cfg_rmw : M value :=
  pose_cfg_content <- with_ (open_r (pose_cfg_path s)) (fun file => safe_load L file) ;;
  pose_cfg_content <- setitem pose_cfg_content (KStr "init_weights") (VStr (checkpoint s)) ;;
  with_ (open_w (pose_cfg_path s)) (fun file => dump L pose_cfg_content file).

Definition pose_cfg_cell : M unit :=
  import_ L "yaml" ;;;
  stmt pose_cfg_rmw.

Definition train_network_cell : M value :=
  extern_call L (train_network_call s).

Definition evaluate_network_cell : M value :=
  magic L "matplotlib" "notebook" ;;;
  extern_call L (evaluate_network_call s).

Definition analyze_videos_cell : M value :=
  extern_call L (analyze_videos_call s).

Definition mpld3_cell : M unit := shell L "pip install mpld3".

Definition plot_trajectories_cell : M value :=
  extern_call L (plot_trajectories_call s).

Definition show_image (it : value * string * string) : M unit :=
  let '(ax, image, title) := it in
  img <- extern_call L (Call "Image.open" [VStr image] []) ;;
  method L ax "imshow" [img] [] ;;;
  method L ax "set_title" [VStr title] [] ;;;
  method L ax "axis" [VStr "off"] [] ;;;
  ret tt.

(** The loop over the four plots, given the axes to draw on. *)
Definition show_images (axs : list value) : M unit :=
  for_ (zip3 axs images titles) show_image.

Definition show_html (fig : value) : M unit :=
  html_plot <- extern_call L (Call "mpld3.fig_to_html" [fig] []) ;;
  h <- extern_call L (Call "HTML" [html_plot] []) ;;
  extern_call L (Call "display" [h] []) ;;;
  ret tt.

Definition plot_display_cell : M unit :=
  import_ L "matplotlib.pyplot" ;;;
  from_import L "PIL" ["Image"] ;;;
  import_ L "mpld3" ;;;
  from_import L "IPython.core.display" ["display"; "HTML"] ;;;
  r <- extern_call L (Call "plt.subplots" [VInt 2; VInt 2] []) ;;
  fig_axes <- unpack2 L r ;;
  let '(fig, axes) := fig_axes in
  flat <- method L axes "ravel" [] [] ;;
  axs <- iter L flat ;;
  show_images axs ;;;
  show_html fig.

Definition create_labeled_video_cell : M value :=
  extern_call L (create_labeled_video_call s).

(** Opening the labelled video, reading its first frame and converting it. *)
Definition first_frame_rgb : M value :=
  video_capture <- extern_call L (Call "cv2.VideoCapture" [VStr (labelled_video_path s)] []) ;;
  r <- method L video_capture "read" [] [] ;;
  ret_frame <- unpack2 L r ;;
  let '(ret_, frame) := ret_frame in
  code <- attr L "cv2.COLOR_BGR2RGB" ;;
  extern_call L (Call "cv2.cvtColor" [frame; code] []).

Definition video_display_cell : M unit :=
  import_ L "cv2" ;;;
  import_ L "matplotlib.pyplot" ;;;
  frame_rgb <- first_frame_rgb ;;
  r <- extern_call L (Call "plt.subplots" [] []) ;;
  fig_ax <- unpack2 L r ;;
  let '(fig, ax) := fig_ax in
  method L ax "imshow" [frame_rgb] [] ;;;
  method L ax "axis" [VStr "off"] [] ;;;
  show_html fig.

(** The code cells of the notebook, from top to bottom. *)
Definition cells : list (M unit) :=
  [ install_cell;
    gpu_check_cell;
    drive_cell;
    stmt variables_cell;
    import_cell;
    stmt path_cell;
    stmt create_training_dataset_cell;
    pose_cfg_cell;
    stmt train_network_cell;
    stmt evaluate_network_cell;
    stmt analyze_videos_cell;
    mpld3_cell;
    stmt plot_trajectories_cell;
    plot_display_cell;
    stmt create_labeled_video_cell;
    video_display_cell ].

Definition run_all : M unit := run cells.

(** The cells before the plot display cell, and the cells after it. *)
Definition before_plots : list (M unit) := take 13 cells.
Definition after_plots : list (M unit) := drop 14 cells.

(** The pipeline calls of each cell. *)
Definition stages : list (list call) :=
  [ []; []; []; []; []; [];
    [create_training_dataset_call s];
    [];
    [train_network_call s];
    [evaluate_network_call s];
    [analyze_videos_call s];
    [];
    [plot_trajectories_call s];
    [];
    [create_labeled_video_call s];
    [] ].

(** The cells before the training cell, and the cells after it. *)
Definition before_training : list (M unit) := take 8 cells.
Definition after_training : list (M unit) := drop 9 cells.

End Cells.

(** *** Reading a trace *)

(** The dictionary of pose_cfg.yaml after the assignment to [init_weights],
    and the two calls of the read-modify-write. *)
Definition updated (s : settings) (d : gmap key value) : gmap key value :=
  <[KStr "init_weights" := VStr (checkpoint s)]> d.

Definition load_call (s : settings) : call :=
  Call "yaml.safe_load" [VFile (pose_cfg_path s)] [].

Definition dump_call (s : settings) (d : gmap key value) : call :=
  Call "yaml.dump" [VDict (updated s d); VFile (pose_cfg_path s)] [].

(** The pipeline, in the order the cells call it. *)
Definition pipeline (s : settings) : list call :=
  [ create_training_dataset_call s;
    train_network_call s;
    evaluate_network_call s;
    analyze_videos_call s;
    plot_trajectories_call s;
    create_labeled_video_call s ].

Definition is_dlc (c : call) : bool := String.prefix "deeplabcut." (fn c).
Definition is_image_open (c : call) : bool := String.eqb (fn c) "Image.open".
Definition is_cv2 (c : call) : bool := String.prefix "cv2." (fn c).

Definition dlc_calls {A} (o : outcome A) : list call := filter (fun c => is_dlc c = true) (calls o).

(** Every call a computation makes satisfies [P], whatever the files. *)
Definition emits {A} (P : call -> Prop) (m : M A) : Prop :=
  forall f, Forall P (calls (m f)).

(** The DeepLabCut calls of a computation are a prefix of [l], and all of
    [l] when it returns. *)
Definition stage {A} (l : list call) (m : M A) : Prop :=
  forall f, dlc_calls (m f) `prefix_of` l /\ (is_ok (res (m f)) = true -> dlc_calls (m f) = l).

(** The calls that the code of a cell spells out, as opposed to those that
    formatting or iterating over an object makes behind the scenes. *)
Definition authored (c : call) : bool :=
  negb (String.eqb (fn c) "format") && negb (String.eqb (fn c) "iter").

(** The names of the calls spelled out, in the order they were made. *)
Definition names {A} (o : outcome A) : list string :=
  fn <$> filter (fun c => authored c = true) (calls o).





(** "The image and video display code comes after the six pipeline calls":
    in the calls of an outcome, every [Image.open] and every OpenCV call has
    all the DeepLabCut calls before it. *)
Definition display_after_pipeline {A} (o : outcome A) : Prop :=
  forall (i j : nat) (ci cj : call),
    calls o !! i = Some ci -> is_image_open ci = true \/ is_cv2 ci = true ->
    calls o !! j = Some cj -> is_dlc cj = true ->
    (j < i)%nat.



(** *** Reading more of a trace *)

(** The value of a keyword argument of a call. *)
Definition kwarg (name : string) (c : call) : option value :=
  snd <$> List.find (fun kv => String.eqb (fst kv) name) (kwargs c).

(** One round of the loop over the plots: the calls made for one axes, one
    path and one title, given the image that [Image.open] returned. *)
Definition plot_round (it : value * string * string) (img : value) : list call :=
  let '(ax, image, title) := it in
  [ Call "Image.open" [VStr image] [];
    Call ".imshow" [ax; img] [];
    Call ".set_title" [ax; VStr title] [];
    Call ".axis" [ax; VStr "off"] [] ].

(** The path that a call of [Image.open] opens, and the paths opened in an
    outcome, in order. *)
Definition opened_path (c : call) : option string :=
  if is_image_open c then
    match args c with
    | [VStr path] => Some path
    | _ => None
    end
  else None.

Definition opened {A} (o : outcome A) : list string := omap opened_path (calls o).

(** The plot files opened by a computation are always a prefix of [l]. *)
Definition opens_within {A} (l : list string) (m : M A) : Prop :=
  forall f, opened (m f) `prefix_of` l.

(** The axes that a call of [imshow] draws on and the title that a call of
    [set_title] sets; those of an outcome, in order. *)
Definition drawn_axes (c : call) : option value :=
  if String.eqb (fn c) ".imshow" then head (args c) else None.

Definition title_set (c : call) : option string :=
  if String.eqb (fn c) ".set_title" then
    match args c with
    | [_; VStr title] => Some title
    | _ => None
    end
  else None.

Definition drawn {A} (o : outcome A) : list value := omap drawn_axes (calls o).
Definition titled {A} (o : outcome A) : list string := omap title_set (calls o).

(** *** Paths below a folder *)

(** The components of a path, split at the slashes. *)
Fixpoint components (p : string) : list string :=
  match p with
  | EmptyString => [EmptyString]
  | String a p' =>
      if Ascii.eqb a (Ascii.ascii_of_nat 47) then EmptyString :: components p'
      else match components p' with
           | c :: cs => String a c :: cs
           | [] => [String a EmptyString]
           end
  end.

(** The path [p] is below the folder [dir]: it goes through the components
    of [dir], and no component after them climbs back up. *)
Definition below (dir p : string) : Prop :=
  exists rest : list string,
    components p = (components dir ++ rest)%list /\ ".." ∉ rest.

(** *** Exceptions are not caught *)

(** An entry of the trace whose call returned. *)
Definition returned (cr : call * result value) : Prop := is_ok cr.2 = true.

(** Every call of the outcome returned, except possibly the last one, whose
    exception is then the result. *)
Definition uncaught {A} (o : outcome A) : Prop :=
  Forall returned (trace o) \/
  exists t c e,
    trace o = (t ++ [(c, Raise e)])%list /\ Forall returned t /\ res o = Raise e.

(** A computation without a handler: the exception of a call ends it, and
    when it returns every call has returned. *)
Definition propagating {A} (m : M A) : Prop :=
  forall f, uncaught (m f) /\ (is_ok (res (m f)) = true -> Forall returned (trace (m f))).

(** The call that copies the shared folder, and the message after it. *)
Definition mount_call : call := Call "drive.mount" [VStr "/content/drive"] [].

Definition copytree_call : call :=
  Call "shutil.copytree" [VStr source_folder; VStr destination_folder] [].

Definition copied_message : call := Call "print" [VStr "Files copied successfully!"] [].

End Notebook.

(** ** Libraries and files to run the notebook on *)

Module Demo.

Import Notebook.

(** A stand-in for the YAML loader on the few texts used below: an empty
    stream is [None], a text that starts with a dash is a list, an unclosed
    brace is an error, anything else is the mapping of "batch_size: 1". *)
Definition toy_load (text : string) : result value :=
  if String.eqb text "" then Ok VNone
  else if String.prefix "- " text then
    Ok (VList [VStr (String.substring 2 (String.length text - 2) text)])
  else if String.prefix "{" text then Raise (LibError "yaml.YAMLError")
  else Ok (VDict {[ KStr "batch_size" := VInt 1 ]}).

(** A stand-in for the YAML dumper: of a mapping it emits the init_weights
    entry. *)
Definition toy_dump (v : value) : string * option exn :=
  match v with
  | VDict d =>
      match d !! KStr "init_weights" with
      | Some (VStr w) => ("init_weights: " +:+ w, None)
      | _ => ("{}", None)
      end
  | _ => ("", Some (LibError "yaml.representer.RepresenterError"))
  end.

Definition exists_nonempty (f : gmap string string) (path : string) : bool :=
  match f !! path with
  | Some text => negb (String.eqb text "")
  | None => false
  end.

(** The libraries as they answer when every step works: a 2 x 2 grid has
    four axes, an image opens when its file holds something, a video gives
    a frame when its file holds something, and the colour conversion
    refuses [None]. *)
Definition colab_extern (c : call) (f : gmap string string) : gmap string string * result value :=
  if String.eqb (fn c) "plt.subplots" then
    (f, Ok (VTuple [VObj 1; match args c with [] => VObj 2 | _ => VObj 3 end]))
  else if String.eqb (fn c) ".ravel" then
    (f, Ok (VList [VObj 10; VObj 11; VObj 12; VObj 13]))
  else if String.eqb (fn c) "Image.open" then
    match args c with
    | [VStr path] =>
        match f !! path with
        | None => (f, Raise (FileNotFoundError path))
        | Some text =>
            if String.eqb text "" then (f, Raise (LibError "PIL.UnidentifiedImageError"))
            else (f, Ok (VObj 30))
        end
    | _ => (f, Raise TypeError)
    end
  else if String.eqb (fn c) "cv2.VideoCapture" then
    match args c with
    | [VStr path] => (f, Ok (VObj (if exists_nonempty f path then 21 else 20)))
    | _ => (f, Raise TypeError)
    end
  else if String.eqb (fn c) ".read" then
    match args c with
    | [VObj 21%N] => (f, Ok (VTuple [VBool true; VObj 22]))
    | _ => (f, Ok (VTuple [VBool false; VNone]))
    end
  else if String.eqb (fn c) "cv2.cvtColor" then
    match args c with
    | VNone :: _ => (f, Raise (LibError "cv2.error"))
    | _ => (f, Ok (VObj 23))
    end
  else if String.eqb (fn c) "getattr" then
    match args c with
    | [VStr "cv2.COLOR_BGR2RGB"] => (f, Ok (VInt 4))
    | _ => (f, Ok (VStr "3.0.0"))
    end
  else if String.eqb (fn c) "mpld3.fig_to_html" then (f, Ok (VStr "<div></div>"))
  else (f, Ok VNone).

Definition colab : library :=
  {| yaml_safe_load := toy_load; yaml_dump := toy_dump; extern := colab_extern |}.

(** Libraries in which every call returns [None] and leaves the files. *)
Definition obliging : library :=
  {| yaml_safe_load := toy_load; yaml_dump := toy_dump; extern := fun _ f => (f, Ok VNone) |}.

(** The same, with the training stopped by the participant. *)
Definition stopped : library :=
  {| yaml_safe_load := toy_load;
     yaml_dump := toy_dump;
     extern := fun c f =>
       if String.eqb (fn c) "deeplabcut.train_network" then (f, Raise KeyboardInterrupt)
       else colab_extern c f |}.

(** The same, with a dumper that fails before it has emitted anything. *)
Definition failing_dump : library :=
  {| yaml_safe_load := toy_load;
     yaml_dump := fun _ => ("", Some (LibError "yaml.representer.RepresenterError"));
     extern := colab_extern |}.

(** The same, with a dumper that emits the whole text and is interrupted
    afterwards. *)
Definition interrupted_dump : library :=
  {| yaml_safe_load := toy_load;
     yaml_dump := fun v => ((toy_dump v).1, Some KeyboardInterrupt);
     extern := colab_extern |}.

(** A project copied to Colab: the pose configuration of shuffle 1, the
    four plots and the labelled video. *)
Definition project : gmap string string :=
  {[ pose_cfg_path shipped := "batch_size: 1";
     plot_likelihood_path := "PNG";
     hist_path := "PNG";
     plot_path := "PNG";
     trajectory_path := "PNG";
     labelled_video_path shipped := "MP4" ]}.

(** The project once the pose configuration has been rewritten. *)
Definition project_edited : gmap string string :=
  <[pose_cfg_path shipped := "init_weights: " +:+ checkpoint shipped]> project.

(** The same project with an empty file where the histogram should be. *)
Definition project_empty_plot : gmap string string := <[hist_path := ""]> project.

(** The same project without the labelled video. *)
Definition project_no_video : gmap string string := delete (labelled_video_path shipped) project.

(** A loader that reads back what [toy_dump] emits. *)
Definition faithful_load (text : string) : result value :=
  if String.prefix "init_weights: " text then
    Ok (VDict {[ KStr "init_weights" := VStr (String.substring 14 (String.length text - 14) text) ]})
  else toy_load text.

Definition faithful : library :=
  {| yaml_safe_load := faithful_load; yaml_dump := toy_dump; extern := colab_extern |}.

(** A project whose pose configuration starts from the ImageNet weights. *)
Definition project_imagenet : gmap string string :=
  {[ pose_cfg_path shipped := "init_weights: imagenet" ]}.

End Demo.

Import Notebook.

(** ** Strings *)

Section Strings.

Lemma length_append (s t : string) :
  String.length (s +:+ t) = (String.length s + String.length t)%nat.
Proof. induction s as [|a s IH]; simpl; [reflexivity | now rewrite IH]. Qed.

Lemma append_inj_r (s1 s2 t : string) : s1 +:+ t = s2 +:+ t -> s1 = s2.
Proof.
  revert s2. induction s1 as [|a s1 IH]; intros [|b s2] H; simpl in H.
  - reflexivity.
  - apply (f_equal String.length) in H. rewrite ?length_append in H. simpl in H.
    rewrite ?length_append in H. lia.
  - apply (f_equal String.length) in H. rewrite ?length_append in H. simpl in H.
    rewrite ?length_append in H. lia.
  - injection H as -> H. f_equal. now apply IH.
Qed.

Lemma append_inj_l (s t1 t2 : string) : s +:+ t1 = s +:+ t2 -> t1 = t2.
Proof. apply String.app_inj. Qed.

End Strings.

(** ** The monad *)

Section Monad.

Context {A B : Type}.

Lemma bind_ok (m : M A) (k : A -> M B) f a :
  res (m f) = Ok a ->
  bind m k f =
    Outcome (fs (k a (fs (m f)))) (trace (m f) ++ trace (k a (fs (m f)))) (res (k a (fs (m f)))).
Proof. intros H. unfold bind. now rewrite H. Qed.

Lemma bind_raise (m : M A) (k : A -> M B) f e :
  res (m f) = Raise e ->
  bind m k f = Outcome (fs (m f)) (trace (m f)) (Raise e).
Proof. intros H. unfold bind. now rewrite H. Qed.

(** An exception is never caught by what follows. *)
Lemma bind_res_raise (m : M A) (k : A -> M B) f e :
  res (m f) = Raise e -> res (bind m k f) = Raise e.
Proof. intros H. now rewrite (bind_raise _ _ _ _ H). Qed.

Lemma bind_is_ok (m : M A) (k : A -> M B) f :
  is_ok (res (bind m k f)) = true ->
  exists a, res (m f) = Ok a /\ is_ok (res (k a (fs (m f)))) = true.
Proof.
  unfold bind. destruct (res (m f)) as [a|e]; simpl; [eauto | discriminate].
Qed.

End Monad.

Lemma bind_ok_inv {A B} (m : M A) (k : A -> M B) f b :
  res (bind m k f) = Ok b ->
  exists a, res (m f) = Ok a /\ res (k a (fs (m f))) = Ok b.
Proof.
  unfold bind. destruct (res (m f)) as [a|e]; simpl; [eauto | discriminate].
Qed.

Lemma extern_call_inv L c f v :
  res (extern_call L c f) = Ok v ->
  extern_call L c f = Outcome (extern L c f).1 [(c, Ok v)] (Ok v).
Proof. unfold extern_call. simpl. now intros ->. Qed.

Lemma trace_extern_call_ok L c f v :
  res (extern_call L c f) = Ok v -> trace (extern_call L c f) = [(c, Ok v)].
Proof. intros H. now rewrite (extern_call_inv _ _ _ _ H). Qed.

Lemma extern_call_responds L c f r f' :
  responds L c f r f' -> extern_call L c f = Outcome f' [(c, r)] r.
Proof. unfold responds, extern_call. now intros ->. Qed.

Lemma import_responds L module f m f' :
  responds L (Call "__import__" [VStr module] []) f (Ok m) f' ->
  import_ L module f = Outcome f' [(Call "__import__" [VStr module] [], Ok m)] (Ok tt).
Proof.
  intros H. apply extern_call_responds in H. unfold import_.
  rewrite (bind_ok _ _ _ m) by (now rewrite H). now rewrite H.
Qed.

Lemma stmt_ok {A} (m : M A) f a :
  res (m f) = Ok a -> stmt m f = Outcome (fs (m f)) (trace (m f)) (Ok tt).
Proof.
  intros H. unfold stmt. rewrite (bind_ok _ _ _ _ H). simpl. now rewrite app_nil_r.
Qed.

Lemma stmt_raise {A} (m : M A) f e :
  res (m f) = Raise e -> stmt m f = Outcome (fs (m f)) (trace (m f)) (Raise e).
Proof. intros H. unfold stmt. now rewrite (bind_raise _ _ _ _ H). Qed.

Lemma run_app_ok (cs1 cs2 : list (M unit)) f :
  res (run cs1 f) = Ok tt ->
  run (cs1 ++ cs2) f =
    Outcome (fs (run cs2 (fs (run cs1 f))))
            (trace (run cs1 f) ++ trace (run cs2 (fs (run cs1 f))))
            (res (run cs2 (fs (run cs1 f)))).
Proof.
  revert f. induction cs1 as [|c cs1 IH]; intros f H; simpl in *.
  - now destruct (run cs2 f).
  - unfold bind in *. destruct (res (c f)) as [[]|e]; simpl in *; [|discriminate].
    rewrite IH; simpl.
    + now rewrite app_assoc.
    + now destruct (res (run cs1 (fs (c f)))) as [[]|].
Qed.

Lemma run_app_raise (cs1 cs2 : list (M unit)) f e :
  res (run cs1 f) = Raise e ->
  run (cs1 ++ cs2) f = Outcome (fs (run cs1 f)) (trace (run cs1 f)) (Raise e).
Proof.
  revert f. induction cs1 as [|c cs1 IH]; intros f H; simpl in *.
  - discriminate.
  - unfold bind in *. destruct (res (c f)) as [[]|e']; simpl in *.
    + rewrite IH; [reflexivity|]. now destruct (res (run cs1 (fs (c f)))).
    + congruence.
Qed.

(** ** The read-modify-write of pose_cfg.yaml *)

Lemma classic_dict (v : value) : (exists d, v = VDict d) \/ (forall d, v <> VDict d).
Proof. destruct v; eauto; right; intros; discriminate. Qed.

Section PoseCfg.

Context (L : library) (s : settings).

Local Abbreviation p := (pose_cfg_path s).

Lemma rmw_missing f :
  f !! p = None -> pose_cfg_rmw L s f = Outcome f [] (Raise (FileNotFoundError p)).
Proof.
  intros H. unfold pose_cfg_rmw, with_, bind, open_r. now rewrite H.
Qed.

Lemma rmw_load_raises f text e :
  f !! p = Some text -> yaml_safe_load L text = Raise e ->
  pose_cfg_rmw L s f = Outcome f [(load_call s, Raise e)] (Raise e).
Proof.
  intros H E. unfold pose_cfg_rmw, with_, bind, open_r, safe_load.
  rewrite H. simpl. rewrite H, E. reflexivity.
Qed.

Lemma rmw_not_a_mapping f text v :
  f !! p = Some text -> yaml_safe_load L text = Ok v -> (forall d, v <> VDict d) ->
  pose_cfg_rmw L s f = Outcome f [(load_call s, Ok v)] (Raise TypeError).
Proof.
  intros H E Hv. unfold pose_cfg_rmw, with_, bind, open_r, safe_load.
  rewrite H. simpl. rewrite H, E. simpl.
  destruct v; try reflexivity. now destruct (Hv d).
Qed.

Lemma rmw_mapping f text d :
  f !! p = Some text -> yaml_safe_load L text = Ok (VDict d) ->
  pose_cfg_rmw L s f =
    let r := match (yaml_dump L (VDict (updated s d))).2 with
             | None => Ok VNone
             | Some e => Raise e
             end in
    Outcome (<[p := (yaml_dump L (VDict (updated s d))).1]> f)
            [(load_call s, Ok (VDict d)); (dump_call s d, r)] r.
Proof.
  intros H E. unfold pose_cfg_rmw, with_, bind, open_r, safe_load, open_w, dump.
  rewrite H. simpl. rewrite H, E. simpl.
  rewrite lookup_insert_eq, insert_insert_eq. simpl.
  reflexivity.
Qed.

Lemma checkpoint_ne_pose_cfg_path : checkpoint s <> p.
Proof.
  unfold checkpoint, pose_cfg_path. intros H.
  apply append_inj_l, append_inj_l in H. discriminate H.
Qed.

(** The read-modify-write looks at no file but pose_cfg.yaml. *)
Lemma rmw_reads_only_pose_cfg f g :
  f !! p = g !! p ->
  res (pose_cfg_rmw L s f) = res (pose_cfg_rmw L s g) /\
  trace (pose_cfg_rmw L s f) = trace (pose_cfg_rmw L s g).
Proof.
  intros H. destruct (g !! p) as [text|] eqn:G.
  - destruct (yaml_safe_load L text) as [v|e] eqn:E.
    + destruct (classic_dict v) as [[d ->]|Hv].
      * now rewrite (rmw_mapping f text d), (rmw_mapping g text d).
      * now rewrite (rmw_not_a_mapping f text v), (rmw_not_a_mapping g text v).
    + now rewrite (rmw_load_raises f text e), (rmw_load_raises g text e).
  - now rewrite (rmw_missing f), (rmw_missing g).
Qed.

End PoseCfg.

(** C1.  For every YAML mapping [d] loaded from pose_cfg_path, the
    read-modify-write makes two library calls, the load of the file and the
    dump of the mapping [updated s d] to the same file; [updated s d] is [d]
    with the key init_weights set to the checkpoint string, so it holds the
    checkpoint at init_weights and the value of [d] at every other key; and
    the only file rewritten is pose_cfg_path, with the text of that dump. *)
Theorem pose_cfg_rmw_rewrites_init_weights (L : library) (s : settings)
    (f : gmap string string) (text : string) (d : gmap key value) :
  f !! pose_cfg_path s = Some text ->
  yaml_safe_load L text = Ok (VDict d) ->
  calls (pose_cfg_rmw L s f) =
    [ Call "yaml.safe_load" [VFile (pose_cfg_path s)] [];
      Call "yaml.dump" [VDict (updated s d); VFile (pose_cfg_path s)] [] ] /\
  updated s d = <[KStr "init_weights" := VStr (checkpoint s)]> d /\
  updated s d !! KStr "init_weights" = Some (VStr (checkpoint s)) /\
  (forall k, k <> KStr "init_weights" -> updated s d !! k = d !! k) /\
  fs (pose_cfg_rmw L s f) = <[pose_cfg_path s := (yaml_dump L (VDict (updated s d))).1]> f.
Proof.
  intros H E. rewrite (rmw_mapping L s f text d H E). simpl.
  repeat split.
  - unfold updated. apply lookup_insert_eq.
  - intros k Hk. unfold updated. now apply lookup_insert_ne.
Qed.

Lemma pose_cfg_rmw_rewrites_init_weights_witness :
  calls (pose_cfg_rmw Demo.colab shipped Demo.project) =
    [ Call "yaml.safe_load" [VFile (pose_cfg_path shipped)] [];
      Call "yaml.dump"
        [VDict (updated shipped {[ KStr "batch_size" := VInt 1 ]});
         VFile (pose_cfg_path shipped)] [] ] /\
  fs (pose_cfg_rmw Demo.colab shipped Demo.project) !! pose_cfg_path shipped =
    Some ("init_weights: " +:+ checkpoint shipped).
Proof.
  destruct (pose_cfg_rmw_rewrites_init_weights Demo.colab shipped Demo.project "batch_size: 1"
              {[ KStr "batch_size" := VInt 1 ]})
    as (Hc & _ & _ & _ & Hf).
  - vm_compute. reflexivity.
  - vm_compute. reflexivity.
  - split; [exact Hc|]. rewrite Hf. rewrite lookup_insert_eq. reflexivity.
Defined.

(** C4.  The read-modify-write handles no error and validates nothing:
    a missing pose_cfg.yaml, a parse error, a loaded value that is not a
    mapping (the item assignment raises TypeError) and a failing dump each
    end the read-modify-write with that very exception; any mapping
    whatsoever is accepted and dumped; and whether a file exists at the
    checkpoint path changes neither the result nor the calls made. *)
Theorem pose_cfg_rmw_propagates (L : library) (s : settings) (f : gmap string string) :
  (f !! pose_cfg_path s = None ->
     res (pose_cfg_rmw L s f) = Raise (FileNotFoundError (pose_cfg_path s))) /\
  (forall text e,
     f !! pose_cfg_path s = Some text -> yaml_safe_load L text = Raise e ->
     res (pose_cfg_rmw L s f) = Raise e) /\
  (forall text v,
     f !! pose_cfg_path s = Some text -> yaml_safe_load L text = Ok v ->
     (forall d, v <> VDict d) ->
     res (pose_cfg_rmw L s f) = Raise TypeError) /\
  (forall text d e,
     f !! pose_cfg_path s = Some text -> yaml_safe_load L text = Ok (VDict d) ->
     (yaml_dump L (VDict (updated s d))).2 = Some e ->
     res (pose_cfg_rmw L s f) = Raise e) /\
  (forall text d,
     f !! pose_cfg_path s = Some text -> yaml_safe_load L text = Ok (VDict d) ->
     (yaml_dump L (VDict (updated s d))).2 = None ->
     res (pose_cfg_rmw L s f) = Ok VNone) /\
  (res (pose_cfg_rmw L s (delete (checkpoint s) f)) = res (pose_cfg_rmw L s f) /\
   calls (pose_cfg_rmw L s (delete (checkpoint s) f)) = calls (pose_cfg_rmw L s f)).
Proof.
  repeat apply conj.
  - intros H. now rewrite rmw_missing.
  - intros text e H E. now rewrite (rmw_load_raises L s f text e).
  - intros text v H E Hv. now rewrite (rmw_not_a_mapping L s f text v).
  - intros text d e H E D. rewrite (rmw_mapping L s f text d H E). simpl. now rewrite D.
  - intros text d H E D. rewrite (rmw_mapping L s f text d H E). simpl. now rewrite D.
  - apply rmw_reads_only_pose_cfg, lookup_delete_ne, checkpoint_ne_pose_cfg_path.
  - unfold calls. f_equal.
    apply rmw_reads_only_pose_cfg, lookup_delete_ne, checkpoint_ne_pose_cfg_path.
Qed.

Lemma pose_cfg_rmw_propagates_witness :
  res (pose_cfg_rmw Demo.colab shipped ∅) = Raise (FileNotFoundError (pose_cfg_path shipped)) /\
  res (pose_cfg_rmw Demo.colab shipped {[ pose_cfg_path shipped := "{" ]}) =
    Raise (LibError "yaml.YAMLError") /\
  res (pose_cfg_rmw Demo.colab shipped {[ pose_cfg_path shipped := "- 1" ]}) = Raise TypeError /\
  res (pose_cfg_rmw Demo.failing_dump shipped Demo.project) =
    Raise (LibError "yaml.representer.RepresenterError") /\
  res (pose_cfg_rmw Demo.colab shipped Demo.project) = Ok VNone.
Proof.
  repeat apply conj.
  - apply (proj1 (pose_cfg_rmw_propagates Demo.colab shipped ∅)). reflexivity.
  - apply (proj1 (proj2 (pose_cfg_rmw_propagates Demo.colab shipped
                           {[ pose_cfg_path shipped := "{" ]})) "{").
    + vm_compute. reflexivity.
    + reflexivity.
  - apply (proj1 (proj2 (proj2 (pose_cfg_rmw_propagates Demo.colab shipped
                                  {[ pose_cfg_path shipped := "- 1" ]}))) "- 1" (VList [VStr "1"])).
    + vm_compute. reflexivity.
    + reflexivity.
    + intros d. discriminate.
  - apply (proj1 (proj2 (proj2 (proj2 (pose_cfg_rmw_propagates Demo.failing_dump shipped
                                         Demo.project)))) "batch_size: 1"
             {[ KStr "batch_size" := VInt 1 ]}).
    + vm_compute. reflexivity.
    + vm_compute. reflexivity.
    + reflexivity.
  - apply (proj1 (proj2 (proj2 (proj2 (proj2 (pose_cfg_rmw_propagates Demo.colab shipped
                                                Demo.project))))) "batch_size: 1"
             {[ KStr "batch_size" := VInt 1 ]}).
    + vm_compute. reflexivity.
    + vm_compute. reflexivity.
    + reflexivity.
Defined.

(** C5, as amended.  The rewrite is not atomic.  When the file exists and
    holds a mapping, [open(pose_cfg_path, 'w')] has emptied the file before
    the dump runs: the read-modify-write leaves the files that the dump leaves
    when it starts on the emptied file.  So when the dump fails, the exception
    leaves the read-modify-write, and pose_cfg.yaml holds only what the dump
    had emitted before it failed: the text it held before is not put back.
    The files are then as they were exactly when the dump had emitted that
    very text before failing; in every other case, and so whenever the dump
    fails before it has emitted all of a text equal to the old one,
    pose_cfg.yaml differs from what it was. *)
Theorem pose_cfg_rmw_not_atomic (L : library) (s : settings)
    (f : gmap string string) (text : string) (d : gmap key value) (e : exn) :
  f !! pose_cfg_path s = Some text ->
  yaml_safe_load L text = Ok (VDict d) ->
  (yaml_dump L (VDict (updated s d))).2 = Some e ->
  fs (open_w (pose_cfg_path s) f) !! pose_cfg_path s = Some "" /\
  fs (pose_cfg_rmw L s f) =
    fs (dump L (VDict (updated s d)) (VFile (pose_cfg_path s)) (fs (open_w (pose_cfg_path s) f))) /\
  res (pose_cfg_rmw L s f) = Raise e /\
  fs (pose_cfg_rmw L s f) !! pose_cfg_path s = Some (yaml_dump L (VDict (updated s d))).1 /\
  ((yaml_dump L (VDict (updated s d))).1 <> text ->
   fs (pose_cfg_rmw L s f) !! pose_cfg_path s <> f !! pose_cfg_path s) /\
  (fs (pose_cfg_rmw L s f) = f <-> (yaml_dump L (VDict (updated s d))).1 = text).
Proof.
  intros H E D. rewrite (rmw_mapping L s f text d H E). simpl. rewrite D.
  repeat apply conj.
  - apply lookup_insert_eq.
  - now rewrite lookup_insert_eq, insert_insert_eq.
  - reflexivity.
  - apply lookup_insert_eq.
  - intros Hne. rewrite lookup_insert_eq, H. congruence.
  - intros Hf. apply (f_equal (fun g => g !! pose_cfg_path s)) in Hf.
    rewrite lookup_insert_eq, H in Hf. congruence.
  - intros ->. now apply insert_id.
Qed.

Lemma pose_cfg_rmw_not_atomic_witness :
  res (pose_cfg_rmw Demo.failing_dump shipped Demo.project) =
    Raise (LibError "yaml.representer.RepresenterError") /\
  Demo.project !! pose_cfg_path shipped = Some "batch_size: 1" /\
  fs (pose_cfg_rmw Demo.failing_dump shipped Demo.project) !! pose_cfg_path shipped = Some "" /\
  fs (pose_cfg_rmw Demo.failing_dump shipped Demo.project) !! pose_cfg_path shipped <>
    Demo.project !! pose_cfg_path shipped.
Proof.
  destruct (pose_cfg_rmw_not_atomic Demo.failing_dump shipped Demo.project "batch_size: 1"
              {[ KStr "batch_size" := VInt 1 ]}
              (LibError "yaml.representer.RepresenterError"))
    as (_ & _ & Hr & Hf & Hne & _).
  - vm_compute. reflexivity.
  - vm_compute. reflexivity.
  - reflexivity.
  - split; [exact Hr|]. split; [vm_compute; reflexivity|]. split; [exact Hf|].
    apply Hne. discriminate.
Defined.

(** C5, as stated, fails: there are executions in which the dump fails
    after the open and the file is left as it was.  Here pose_cfg.yaml has been edited
    by an earlier run, the dump emits the whole text (the same as before) and
    is interrupted afterwards: the read-modify-write ends with the interrupt,
    the dump is the call that raised, and every file is as it was. *)
Lemma failed_dump_can_leave_file_unchanged :
  Demo.project_edited !! pose_cfg_path shipped = Some ("init_weights: " +:+ checkpoint shipped) /\
  trace (pose_cfg_rmw Demo.interrupted_dump shipped Demo.project_edited) =
    [ (load_call shipped, Ok (VDict {[ KStr "batch_size" := VInt 1 ]}));
      (dump_call shipped {[ KStr "batch_size" := VInt 1 ]}, Raise KeyboardInterrupt) ] /\
  res (pose_cfg_rmw Demo.interrupted_dump shipped Demo.project_edited) = Raise KeyboardInterrupt /\
  fs (pose_cfg_rmw Demo.interrupted_dump shipped Demo.project_edited) = Demo.project_edited.
Proof.
  assert (H : Demo.project_edited !! pose_cfg_path shipped =
              Some ("init_weights: " +:+ checkpoint shipped)).
  { unfold Demo.project_edited. apply lookup_insert_eq. }
  split; [exact H|].
  rewrite (rmw_mapping Demo.interrupted_dump shipped Demo.project_edited
             ("init_weights: " +:+ checkpoint shipped)
             {[ KStr "batch_size" := VInt 1 ]} H) by reflexivity.
  repeat apply conj; [reflexivity | reflexivity | cbn [fs]; now apply insert_id].
Qed.

(** ** Path strings *)

(** C3.  Whatever [shuffle] is, the read-modify-write loads the
    pose_cfg.yaml of trainset95shuffle{shuffle} and dumps to that same file
    the mapping it has loaded with init_weights set to the checkpoint of
    old_dlc-models/iteration-5/ss_vs_sscwJan30-trainset95shuffle2/train/snapshot-100000:
    the value assigned does not depend on [shuffle], the file that is edited
    does (two different values of [shuffle] give two different files, and the
    file of another shuffle is left as it was).  With shuffle = 1 the file
    edited is the one of trainset95shuffle1 and the checkpoint written into it
    is the one of trainset95shuffle2. *)
Theorem checkpoint_ignores_shuffle (L : library) (P V : string) (n : Z)
    (f : gmap string string) (text : string) (d : gmap key value) :
  f !! pose_cfg_path (Settings P V n) = Some text ->
  yaml_safe_load L text = Ok (VDict d) ->
  calls (pose_cfg_rmw L (Settings P V n) f) =
    [ Call "yaml.safe_load"
        [ VFile ("/content/behavior-and-calcium-imaging-workshop/" +:+ P +:+
                 "/dlc-models/iteration-5/ss_vs_sscwJan30-trainset95shuffle" +:+ pretty n +:+
                 "/train/pose_cfg.yaml") ] [];
      Call "yaml.dump"
        [ VDict (<[KStr "init_weights" :=
                     VStr ("/content/behavior-and-calcium-imaging-workshop/" +:+ P +:+
                           "/old_dlc-models/iteration-5/ss_vs_sscwJan30-trainset95shuffle2/train/snapshot-100000")]> d);
          VFile ("/content/behavior-and-calcium-imaging-workshop/" +:+ P +:+
                 "/dlc-models/iteration-5/ss_vs_sscwJan30-trainset95shuffle" +:+ pretty n +:+
                 "/train/pose_cfg.yaml") ] [] ] /\
  (forall m, checkpoint (Settings P V m) = checkpoint (Settings P V n)) /\
  (forall m, m <> n ->
     pose_cfg_path (Settings P V m) <> pose_cfg_path (Settings P V n) /\
     fs (pose_cfg_rmw L (Settings P V n) f) !! pose_cfg_path (Settings P V m) =
       f !! pose_cfg_path (Settings P V m)) /\
  (n = 1 ->
   calls (pose_cfg_rmw L (Settings P V n) f) =
     [ Call "yaml.safe_load"
         [ VFile ("/content/behavior-and-calcium-imaging-workshop/" +:+ P +:+
                  "/dlc-models/iteration-5/ss_vs_sscwJan30-trainset95shuffle1/train/pose_cfg.yaml") ] [];
       Call "yaml.dump"
         [ VDict (<[KStr "init_weights" :=
                      VStr ("/content/behavior-and-calcium-imaging-workshop/" +:+ P +:+
                            "/old_dlc-models/iteration-5/ss_vs_sscwJan30-trainset95shuffle2/train/snapshot-100000")]> d);
           VFile ("/content/behavior-and-calcium-imaging-workshop/" +:+ P +:+
                  "/dlc-models/iteration-5/ss_vs_sscwJan30-trainset95shuffle1/train/pose_cfg.yaml") ] [] ]).
Proof.
  intros H E.
  assert (Hne : forall m, m <> n ->
            pose_cfg_path (Settings P V m) <> pose_cfg_path (Settings P V n)).
  { intros m Hm Hp. apply Hm. unfold pose_cfg_path in Hp. simpl in Hp.
    do 3 apply append_inj_l in Hp.
    apply append_inj_r in Hp. now apply (inj pretty) in Hp. }
  rewrite (rmw_mapping L (Settings P V n) f text d H E). cbn [calls trace fs fmap list_fmap fst].
  repeat apply conj.
  - reflexivity.
  - reflexivity.
  - intros m Hm. split; [now apply Hne|]. apply lookup_insert_ne.
    intros Hp. now apply (Hne m Hm).
  - intros ->. reflexivity.
Qed.

Lemma checkpoint_ignores_shuffle_witness :
  calls (pose_cfg_rmw Demo.colab (Settings "workshop-network-2025" "mp4" 1) Demo.project) =
    [ Call "yaml.safe_load"
        [ VFile "/content/behavior-and-calcium-imaging-workshop/workshop-network-2025/dlc-models/iteration-5/ss_vs_sscwJan30-trainset95shuffle1/train/pose_cfg.yaml" ] [];
      Call "yaml.dump"
        [ VDict (<[KStr "init_weights" :=
                     VStr "/content/behavior-and-calcium-imaging-workshop/workshop-network-2025/old_dlc-models/iteration-5/ss_vs_sscwJan30-trainset95shuffle2/train/snapshot-100000"]>
                   {[ KStr "batch_size" := VInt 1 ]});
          VFile "/content/behavior-and-calcium-imaging-workshop/workshop-network-2025/dlc-models/iteration-5/ss_vs_sscwJan30-trainset95shuffle1/train/pose_cfg.yaml" ] [] ].
Proof.
  apply (checkpoint_ignores_shuffle Demo.colab "workshop-network-2025" "mp4" 1 Demo.project
           "batch_size: 1" {[ KStr "batch_size" := VInt 1 ]});
    reflexivity.
Defined.

(** ** What a computation calls *)

Section Emits.

Context (P : call -> Prop).

Lemma emits_ret {A} (a : A) : emits P (ret a).
Proof. intros f. constructor. Qed.

Lemma emits_raise {A} (e : exn) : emits P (@raise A e).
Proof. intros f. constructor. Qed.

Lemma emits_bind {A B} (m : M A) (k : A -> M B) :
  emits P m -> (forall a, emits P (k a)) -> emits P (bind m k).
Proof.
  intros Hm Hk f. unfold calls, bind.
  destruct (res (m f)) as [a|e] eqn:E; simpl.
  - rewrite fmap_app. apply Forall_app. split; [apply Hm | apply Hk].
  - apply Hm.
Qed.

Lemma emits_extern_call L c : P c -> emits P (extern_call L c).
Proof. intros H f. repeat constructor. exact H. Qed.

Lemma emits_open_r path : emits P (open_r path).
Proof. intros f. unfold open_r. destruct (f !! path); constructor. Qed.

Lemma emits_open_w path : emits P (open_w path).
Proof. intros f. constructor. Qed.

Lemma emits_safe_load L stream :
  P (Call "yaml.safe_load" [stream] []) -> emits P (safe_load L stream).
Proof. intros H f. repeat constructor. exact H. Qed.

Lemma emits_dump L data stream :
  P (Call "yaml.dump" [data; stream] []) -> emits P (dump L data stream).
Proof. intros H f. unfold dump. destruct stream; repeat constructor; exact H. Qed.

Lemma emits_for {A} (l : list A) (body : A -> M unit) :
  (forall x, emits P (body x)) -> emits P (for_ l body).
Proof.
  intros H. induction l as [|x l IH]; simpl.
  - apply emits_ret.
  - apply emits_bind; [apply H | intros _; exact IH].
Qed.

Lemma emits_run (cs : list (M unit)) : Forall (emits P) cs -> emits P (run cs).
Proof.
  induction 1 as [|c cs Hc _ IH]; simpl.
  - apply emits_ret.
  - apply emits_bind; [exact Hc | intros _; exact IH].
Qed.

End Emits.

(** Going through a piece of notebook code call by call; [side] proves the
    property of each call met. *)
Ltac emits_with side :=
  repeat first
    [ apply emits_ret
    | apply emits_raise
    | apply emits_open_r
    | apply emits_open_w
    | apply emits_safe_load; side
    | apply emits_dump; side
    | apply emits_extern_call; side
    | apply emits_for; intros ?
    | apply emits_bind; [|intros ?]
    | match goal with
      | |- emits _ (match ?v with _ => _ end) => destruct v
      end
    | progress unfold method, attr, import_, from_import, shell, magic, print, format,
        setitem, iter, unpack2, with_, stmt, show_images, show_image, show_html,
        pose_cfg_rmw, first_frame_rgb ].

Ltac name_side :=
  first [ reflexivity | let H := fresh in intros H; first [ discriminate H | reflexivity ] ].

Ltac cells_emit side :=
  unfold cells; repeat constructor;
  unfold install_cell, gpu_check_cell, drive_cell, variables_cell, import_cell, path_cell,
    create_training_dataset_cell, pose_cfg_cell, train_network_cell, evaluate_network_cell,
    analyze_videos_cell, mpld3_cell, plot_trajectories_cell, plot_display_cell,
    create_labeled_video_cell, video_display_cell;
  emits_with side.

Section Order.

Context (L : library) (s : settings).

Lemma cells_config_path :
  Forall (emits (fun c => is_dlc c = true -> head (args c) = Some (VStr (path_config_file s))))
         (cells L s).
Proof. cells_emit name_side. Qed.

Lemma cells_split :
  cells L s = (before_plots L s ++ [plot_display_cell L] ++ after_plots L s)%list.
Proof. reflexivity. Qed.

Lemma before_plots_no_image :
  Forall (emits (fun c => is_image_open c = false)) (before_plots L s).
Proof. unfold before_plots. simpl. cells_emit name_side. Qed.

Lemma after_plots_no_image :
  Forall (emits (fun c => is_image_open c = false)) (after_plots L s).
Proof. unfold after_plots. simpl. cells_emit name_side. Qed.

Lemma before_plots_no_cv2 : Forall (emits (fun c => is_cv2 c = false)) (before_plots L s).
Proof. unfold before_plots. simpl. cells_emit name_side. Qed.

Lemma plot_display_no_cv2 : emits (fun c => is_cv2 c = false) (plot_display_cell L).
Proof. unfold plot_display_cell. emits_with name_side. Qed.

Lemma plot_display_quiet : emits (fun c => is_dlc c = false) (plot_display_cell L).
Proof. unfold plot_display_cell. emits_with name_side. Qed.

Lemma video_display_quiet : emits (fun c => is_dlc c = false) (video_display_cell L s).
Proof. unfold video_display_cell. emits_with name_side. Qed.

Lemma video_display_no_image : emits (fun c => is_image_open c = false) (video_display_cell L s).
Proof. unfold video_display_cell. emits_with name_side. Qed.

End Order.

(** ** The order of the pipeline *)

(** One goal per cell. *)
Ltac split_cells :=
  repeat match goal with
         | |- Forall2 _ (_ :: _) (_ :: _) => apply List.Forall2_cons
         | |- Forall2 _ [] [] => apply List.Forall2_nil
         end.

Section Stage.

Lemma filter_dlc_none (l : list call) :
  Forall (fun c => is_dlc c = false) l -> filter (fun c => is_dlc c = true) l = [].
Proof.
  induction 1 as [|c l Hc _ IH]; [reflexivity|].
  rewrite filter_cons. destruct (decide (is_dlc c = true)); [congruence | exact IH].
Qed.

Lemma dlc_calls_bind_ok {A B} (m : M A) (k : A -> M B) f a :
  res (m f) = Ok a ->
  dlc_calls (bind m k f) = (dlc_calls (m f) ++ dlc_calls (k a (fs (m f))))%list.
Proof.
  intros H. rewrite (bind_ok _ _ _ _ H). unfold dlc_calls, calls. simpl.
  now rewrite fmap_app, filter_app.
Qed.

Lemma dlc_calls_bind_raise {A B} (m : M A) (k : A -> M B) f e :
  res (m f) = Raise e -> dlc_calls (bind m k f) = dlc_calls (m f).
Proof. intros H. now rewrite (bind_raise _ _ _ _ H). Qed.

Lemma stage_quiet {A} (m : M A) : emits (fun c => is_dlc c = false) m -> stage [] m.
Proof.
  intros H f. unfold dlc_calls. rewrite (filter_dlc_none _ (H f)). split; [reflexivity | tauto].
Qed.

Lemma stage_bind {A B} (l1 l2 : list call) (m : M A) (k : A -> M B) :
  stage l1 m -> (forall a, stage l2 (k a)) -> stage (l1 ++ l2) (bind m k).
Proof.
  intros Hm Hk f. destruct (Hm f) as [Hp Hok].
  destruct (res (m f)) as [a|e] eqn:E.
  - rewrite (dlc_calls_bind_ok _ _ _ _ E), (bind_ok _ _ _ _ E). simpl.
    destruct (Hk a (fs (m f))) as [Hp' Hok'].
    rewrite (Hok eq_refl). split.
    + now apply prefix_app.
    + intros H. now rewrite (Hok' H).
  - rewrite (dlc_calls_bind_raise _ _ _ _ E), (bind_raise _ _ _ _ E). simpl. split.
    + now apply prefix_app_r.
    + discriminate.
Qed.

Lemma stage_extern_call L c : is_dlc c = true -> stage [c] (extern_call L c).
Proof.
  intros Hc f. unfold extern_call, dlc_calls, calls. simpl.
  rewrite filter_cons. destruct (decide (is_dlc c = true)); [|congruence].
  split; auto.
Qed.

Lemma stage_stmt {A} (l : list call) (m : M A) : stage l m -> stage l (stmt m).
Proof.
  intros H. unfold stmt. rewrite <- (app_nil_r l).
  apply stage_bind; [exact H | intros _; apply stage_quiet, emits_ret].
Qed.

Lemma stage_run (ls : list (list call)) (cs : list (M unit)) :
  Forall2 stage ls cs -> stage (concat ls) (run cs).
Proof.
  induction 1 as [|l c ls cs Hc _ IH]; simpl.
  - apply stage_quiet, emits_ret.
  - apply stage_bind; [exact Hc | intros _; exact IH].
Qed.

Context (L : library) (s : settings).

Lemma cells_stages : Forall2 stage (stages s) (cells L s).
Proof.
  unfold stages, cells.
  split_cells;
    try (apply stage_stmt; apply stage_extern_call; reflexivity);
    try (apply stage_quiet;
         unfold install_cell, gpu_check_cell, drive_cell, variables_cell, import_cell,
           path_cell, pose_cfg_cell, mpld3_cell, plot_display_cell, video_display_cell;
         emits_with name_side).
  (* the evaluation cell starts with a magic *)
  apply stage_stmt. unfold evaluate_network_cell.
  apply (stage_bind [] [evaluate_network_call s]).
  - apply stage_quiet. emits_with name_side.
  - intros _. apply stage_extern_call. reflexivity.
Qed.

Lemma stage_run_all : stage (pipeline s) (run_all L s).
Proof. apply (stage_run (stages s) (cells L s)), cells_stages. Qed.

Lemma stage_before_plots : stage (take 5 (pipeline s)) (run (before_plots L s)).
Proof.
  apply (stage_run (take 13 (stages s)) (take 13 (cells L s))), Forall2_take, cells_stages.
Qed.

End Stage.

Lemma run_app_inv (cs1 cs2 : list (M unit)) f :
  res (run (cs1 ++ cs2) f) = Ok tt ->
  res (run cs1 f) = Ok tt /\
  res (run cs2 (fs (run cs1 f))) = Ok tt /\
  trace (run (cs1 ++ cs2) f) = (trace (run cs1 f) ++ trace (run cs2 (fs (run cs1 f))))%list.
Proof.
  intros H. destruct (res (run cs1 f)) as [[]|e] eqn:E.
  - rewrite (run_app_ok _ _ _ E) in *. simpl in *. auto.
  - rewrite (run_app_raise _ _ _ _ E) in H. discriminate.
Qed.

Lemma after_plots_calls L s f :
  res (run (after_plots L s) f) = Ok tt ->
  exists f', calls (run (after_plots L s) f) =
             create_labeled_video_call s :: calls (video_display_cell L s f').
Proof.
  unfold after_plots, cells. simpl. unfold create_labeled_video_cell. intros H.
  destruct (res (extern_call L (create_labeled_video_call s) f)) as [v|e] eqn:E.
  - pose proof (stmt_ok _ _ _ E) as Hs.
    exists (fs (extern_call L (create_labeled_video_call s) f)).
    rewrite (bind_ok _ _ _ tt) by (now rewrite Hs).
    rewrite Hs. unfold calls. cbn [fs trace res extern_call fmap list_fmap app].
    f_equal.
    destruct (res (video_display_cell L s (extern L (create_labeled_video_call s) f).1))
      as [[]|e] eqn:E2.
    + rewrite (bind_ok _ _ _ _ E2). cbn [fs trace res ret]. now rewrite app_nil_r.
    + now rewrite (bind_raise _ _ _ _ E2).
  - rewrite (bind_raise _ _ _ e) in H; [discriminate|].
    now rewrite (stmt_raise _ _ _ E).
Qed.

(** C2, as amended.  Running the notebook from top to bottom, the DeepLabCut
    calls made are always a prefix of create_training_dataset, train_network,
    evaluate_network, analyze_videos, plot_trajectories, create_labeled_video
    (no pipeline call is made out of this order), and a run that completes
    makes exactly these six calls, once each.  The display of the plot images
    is not after all six: in a completed run the calls split into the calls up
    to plot_trajectories (with the first five pipeline calls), then those of
    the plot display cell, then create_labeled_video, then those of the video
    display cell; [Image.open] is called only in the second part, OpenCV only
    in the last one. *)
Theorem pipeline_order (L : library) (s : settings) (f : gmap string string) :
  dlc_calls (run_all L s f) `prefix_of` pipeline s /\
  (res (run_all L s f) = Ok tt ->
   dlc_calls (run_all L s f) = pipeline s /\
   exists a b d : list call,
     calls (run_all L s f) = (a ++ b ++ create_labeled_video_call s :: d)%list /\
     filter (fun c => is_dlc c = true) a = take 5 (pipeline s) /\
     Forall (fun c => is_dlc c = false) b /\
     Forall (fun c => is_dlc c = false) d /\
     Forall (fun c => is_image_open c = false) a /\
     Forall (fun c => is_image_open c = false) d /\
     Forall (fun c => is_cv2 c = false) a /\
     Forall (fun c => is_cv2 c = false) b).
Proof.
  destruct (stage_run_all L s f) as [Hp Hok]. split; [exact Hp|].
  intros H. split; [apply Hok; now rewrite H|].
  unfold run_all in H |- *. rewrite cells_split in H |- *.
  apply run_app_inv in H as (H1 & H2 & Ht).
  set (f1 := fs (run (before_plots L s) f)) in *.
  apply (run_app_inv [plot_display_cell L]) in H2 as (H2 & H3 & Ht').
  set (f2 := fs (run [plot_display_cell L] f1)) in *.
  destruct (after_plots_calls L s f2 H3) as [f3 Hd].
  exists (calls (run (before_plots L s) f)), (calls (plot_display_cell L f1)),
         (calls (video_display_cell L s f3)).
  repeat apply conj.
  - unfold calls in *. rewrite Ht, Ht', !fmap_app, Hd. f_equal. f_equal.
    simpl. unfold bind. destruct (res (plot_display_cell L f1)); simpl; now rewrite ?app_nil_r.
  - apply (stage_before_plots L s f). now rewrite H1.
  - apply plot_display_quiet.
  - apply video_display_quiet.
  - apply (emits_run _ _ (before_plots_no_image L s)).
  - apply video_display_no_image.
  - apply (emits_run _ _ (before_plots_no_cv2 L s)).
  - apply plot_display_no_cv2.
Qed.

Lemma pipeline_order_witness :
  dlc_calls (run_all Demo.colab shipped Demo.project) = pipeline shipped.
Proof.
  apply (proj2 (pipeline_order Demo.colab shipped Demo.project)).
  vm_compute. reflexivity.
Defined.

(** C2, as stated, fails: on the project as copied to Colab, with libraries
    that all answer, the run completes, yet the plot images are opened before
    create_labeled_video is called. *)
Lemma display_not_after_pipeline :
  res (run_all Demo.colab shipped Demo.project) = Ok tt /\
  ~ display_after_pipeline (run_all Demo.colab shipped Demo.project).
Proof.
  split; [vm_compute; reflexivity|].
  intros H.
  specialize (H 38%nat 57%nat
                (Call "Image.open" [VStr plot_likelihood_path] [])
                (create_labeled_video_call shipped)).
  assert (57 < 38)%nat; [|lia].
  apply H.
  - vm_compute. reflexivity.
  - left. reflexivity.
  - vm_compute. reflexivity.
  - reflexivity.
Qed.

(** C7.  For every project folder name, the configuration path is
    '/content/behavior-and-calcium-imaging-workshop/' + ProjectFolderName +
    '/config.yaml'; it is the first argument of each of the six pipeline
    calls, and of every DeepLabCut call of every run of the notebook. *)
Theorem config_path_first_argument (L : library) (s : settings) (f : gmap string string) :
  path_config_file s =
    "/content/behavior-and-calcium-imaging-workshop/" +:+ ProjectFolderName s +:+ "/config.yaml" /\
  Forall (fun c => head (args c) = Some (VStr (path_config_file s))) (pipeline s) /\
  Forall (fun c => is_dlc c = true -> head (args c) = Some (VStr (path_config_file s)))
         (calls (run_all L s f)).
Proof.
  repeat apply conj.
  - reflexivity.
  - repeat constructor.
  - apply (emits_run _ _ (cells_config_path L s)).
Qed.

(** ** Cells that complete, cells that raise *)

Lemma head_calls_bind {A B} (m : M A) (k : A -> M B) f c :
  head (calls (m f)) = Some c -> head (calls (bind m k f)) = Some c.
Proof.
  unfold bind, calls. destruct (res (m f)); simpl; [|auto].
  rewrite fmap_app. destruct (trace (m f)); [discriminate | auto].
Qed.

Lemma extern_call_returned L c f :
  Forall returned (trace (extern_call L c f)) -> exists v, res (extern_call L c f) = Ok v.
Proof.
  unfold extern_call, returned. cbn [trace res]. intros H.
  apply Forall_cons_1 in H as [H _]. cbn in H.
  destruct (extern L c f).2; [eauto | discriminate].
Qed.

Lemma bind_returned {A B} (m : M A) (k : A -> M B) f :
  Forall returned (trace (bind m k f)) ->
  (Forall returned (trace (m f)) -> exists a, res (m f) = Ok a) ->
  exists a, res (m f) = Ok a /\
            Forall returned (trace (k a (fs (m f)))) /\
            res (bind m k f) = res (k a (fs (m f))).
Proof.
  unfold bind. intros H Hm. destruct (res (m f)) as [a|e] eqn:E; cbn [trace res] in *.
  - apply Forall_app in H as [_ H]. eauto.
  - destruct (Hm H) as [a Ha]. discriminate Ha.
Qed.

Lemma show_image_completes L it f :
  Forall returned (trace (show_image L it f)) -> res (show_image L it f) = Ok tt.
Proof.
  destruct it as [[ax image] title]. unfold show_image, method. intros H.
  destruct (bind_returned _ _ _ H (extern_call_returned _ _ _)) as (img & _ & H1 & ->).
  destruct (bind_returned _ _ _ H1 (extern_call_returned _ _ _)) as (v2 & _ & H2 & ->).
  destruct (bind_returned _ _ _ H2 (extern_call_returned _ _ _)) as (v3 & _ & H3 & ->).
  destruct (bind_returned _ _ _ H3 (extern_call_returned _ _ _)) as (v4 & _ & H4 & ->).
  reflexivity.
Qed.

Lemma for_completes {A} (body : A -> M unit) :
  (forall x f, Forall returned (trace (body x f)) -> res (body x f) = Ok tt) ->
  forall l f, Forall returned (trace (for_ l body f)) -> res (for_ l body f) = Ok tt.
Proof.
  intros Hb l. induction l as [|x l IH]; intros f H; simpl in *; [reflexivity|].
  destruct (bind_returned _ _ _ H) as ([] & _ & H1 & ->).
  - intros Hx. exists tt. now apply Hb.
  - now apply IH.
Qed.

Lemma show_images_completes L axs f :
  Forall returned (trace (show_images L axs f)) -> res (show_images L axs f) = Ok tt.
Proof. unfold show_images. apply for_completes. apply show_image_completes. Qed.

(** C6, as amended.  When pose_cfg.yaml exists, parses to a YAML mapping
    and the dump does not fail, the read-modify-write completes: the
    operations of the notebook itself (opening the file, the item assignment,
    opening it again for writing) cannot fail then.  The loop over the plot
    images completes when each library call it makes (Image.open, imshow,
    set_title, axis) returns: the loop has no error of its own, whatever the
    number of axes.  That the calls return is a condition on the libraries,
    which the mere existence of the image files does not give.  The notebook
    checks nothing before the loop: whatever the files, the first thing the
    loop does is to call Image.open on the first path. *)
Theorem cells_complete_when_calls_return (L : library) (s : settings) :
  (forall f text d,
     f !! pose_cfg_path s = Some text ->
     yaml_safe_load L text = Ok (VDict d) ->
     (yaml_dump L (VDict (updated s d))).2 = None ->
     res (pose_cfg_rmw L s f) = Ok VNone) /\
  (forall axs f,
     Forall returned (trace (show_images L axs f)) ->
     res (show_images L axs f) = Ok tt) /\
  (forall ax axs f,
     head (calls (show_images L (ax :: axs) f)) =
       Some (Call "Image.open" [VStr plot_likelihood_path] [])).
Proof.
  repeat apply conj.
  - intros f text d H E D. rewrite (rmw_mapping L s f text d H E). simpl. now rewrite D.
  - apply show_images_completes.
  - intros ax axs f. unfold show_images. simpl.
    apply head_calls_bind. unfold show_image. apply head_calls_bind. reflexivity.
Qed.

Lemma cells_complete_when_calls_return_witness :
  res (pose_cfg_rmw Demo.colab shipped Demo.project) = Ok VNone /\
  res (show_images Demo.colab [VObj 10; VObj 11; VObj 12; VObj 13] Demo.project) = Ok tt.
Proof.
  split.
  - apply (proj1 (cells_complete_when_calls_return Demo.colab shipped) Demo.project
             "batch_size: 1" {[ KStr "batch_size" := VInt 1 ]}).
    + vm_compute. reflexivity.
    + vm_compute. reflexivity.
    + reflexivity.
  - apply (proj1 (proj2 (cells_complete_when_calls_return Demo.colab shipped))).
    vm_compute. repeat constructor.
Defined.

(** C6, as stated, fails: every file the notebook consumes exists (the pose
    configuration, which parses to a mapping, the four plots and the labelled
    video), but the histogram file is empty, Image.open refuses it, and the
    run ends with that exception in the plot display cell. *)
Lemma existing_files_do_not_suffice :
  (exists text d, Demo.project_empty_plot !! pose_cfg_path shipped = Some text /\
                  yaml_safe_load Demo.colab text = Ok (VDict d)) /\
  Forall (fun path => is_Some (Demo.project_empty_plot !! path))
         (pose_cfg_path shipped :: labelled_video_path shipped :: images) /\
  res (show_images Demo.colab [VObj 10; VObj 11; VObj 12; VObj 13] Demo.project_empty_plot) =
    Raise (LibError "PIL.UnidentifiedImageError") /\
  res (run_all Demo.colab shipped Demo.project_empty_plot) =
    Raise (LibError "PIL.UnidentifiedImageError").
Proof.
  repeat apply conj.
  - exists "batch_size: 1",
      {[ KStr "batch_size" := VInt 1 ]}.
    split; vm_compute; reflexivity.
  - repeat constructor; vm_compute; eauto.
  - vm_compute. reflexivity.
  - vm_compute. reflexivity.
Qed.

Lemma cells_split_training L s :
  cells L s =
    (before_training L s ++ [stmt (train_network_cell L s)] ++ after_training L s)%list.
Proof. reflexivity. Qed.

(** C8.  Nothing in the notebook catches an exception.  When the cells
    before the training cell have run and [deeplabcut.train_network] raises
    (a KeyboardInterrupt when the participant stops it), the training cell
    ends with that exception, and so does the run: the files are left as the
    library left them, and the trace ends with the single call of
    train_network, so nothing is cleaned up and nothing is tried again. *)
Theorem interrupt_propagates (L : library) (s : settings)
    (f0 f' : gmap string string) (e : exn) :
  res (run (before_training L s) f0) = Ok tt ->
  responds L (train_network_call s) (fs (run (before_training L s) f0)) (Raise e) f' ->
  train_network_cell L s (fs (run (before_training L s) f0)) =
    Outcome f' [(train_network_call s, Raise e)] (Raise e) /\
  run_all L s f0 =
    Outcome f' (trace (run (before_training L s) f0) ++ [(train_network_call s, Raise e)])
            (Raise e).
Proof.
  intros H0 Hr.
  assert (Ht : train_network_cell L s (fs (run (before_training L s) f0)) =
               Outcome f' [(train_network_call s, Raise e)] (Raise e)).
  { unfold train_network_cell. now apply extern_call_responds. }
  split; [exact Ht|].
  unfold run_all. rewrite cells_split_training, (run_app_ok _ _ _ H0).
  set (f1 := fs (run (before_training L s) f0)) in *.
  assert (Hs : stmt (train_network_cell L s) f1 =
               Outcome f' [(train_network_call s, Raise e)] (Raise e)).
  { rewrite (stmt_raise _ _ e); now rewrite Ht. }
  assert (Hrun : run ([stmt (train_network_cell L s)] ++ after_training L s) f1 =
                 Outcome f' [(train_network_call s, Raise e)] (Raise e)).
  { change (run ([stmt (train_network_cell L s)] ++ after_training L s))
      with (stmt (train_network_cell L s) ;;; run (after_training L s)).
    rewrite (bind_raise _ _ _ e); now rewrite Hs. }
  now rewrite Hrun.
Qed.

Lemma interrupt_propagates_witness :
  train_network_cell Demo.stopped shipped
    (fs (run (before_training Demo.stopped shipped) Demo.project)) =
    Outcome Demo.project_edited [(train_network_call shipped, Raise KeyboardInterrupt)]
            (Raise KeyboardInterrupt) /\
  run_all Demo.stopped shipped Demo.project =
    Outcome Demo.project_edited
            (trace (run (before_training Demo.stopped shipped) Demo.project) ++
             [(train_network_call shipped, Raise KeyboardInterrupt)])
            (Raise KeyboardInterrupt).
Proof.
  apply interrupt_propagates.
  - vm_compute. reflexivity.
  - reflexivity.
Defined.

(** C10.  The video display cell does not look at the flag returned by
    [video_capture.read()]: whatever the flag and whatever the frame, the
    frame goes to [cv2.cvtColor], and what that call returns or raises is what
    reading the first frame returns or raises.  So when the read gives no
    frame ([None], as for a video that cannot be opened or has no frame) and
    the conversion raises on it, the cell ends with that exception, after the
    six calls listed: it completes only if there is a frame to convert. *)
Theorem first_frame_unchecked (L : library) (s : settings)
    (f0 fa f f1 f2 f3 f4 : gmap string string) (m1 m2 vc b frame code : value)
    (r : result value) (e : exn) :
  responds L (Call "cv2.VideoCapture" [VStr (labelled_video_path s)] []) f (Ok vc) f1 ->
  responds L (Call ".read" [vc] []) f1 (Ok (VTuple [b; frame])) f2 ->
  responds L (Call "getattr" [VStr "cv2.COLOR_BGR2RGB"] []) f2 (Ok code) f3 ->
  responds L (Call "cv2.cvtColor" [frame; code] []) f3 r f4 ->
  first_frame_rgb L s f =
    Outcome f4
      [ (Call "cv2.VideoCapture" [VStr (labelled_video_path s)] [], Ok vc);
        (Call ".read" [vc] [], Ok (VTuple [b; frame]));
        (Call "getattr" [VStr "cv2.COLOR_BGR2RGB"] [], Ok code);
        (Call "cv2.cvtColor" [frame; code] [], r) ]
      r /\
  (responds L (Call "__import__" [VStr "cv2"] []) f0 (Ok m1) fa ->
   responds L (Call "__import__" [VStr "matplotlib.pyplot"] []) fa (Ok m2) f ->
   frame = VNone -> r = Raise e ->
   video_display_cell L s f0 =
     Outcome f4
       [ (Call "__import__" [VStr "cv2"] [], Ok m1);
         (Call "__import__" [VStr "matplotlib.pyplot"] [], Ok m2);
         (Call "cv2.VideoCapture" [VStr (labelled_video_path s)] [], Ok vc);
         (Call ".read" [vc] [], Ok (VTuple [b; VNone]));
         (Call "getattr" [VStr "cv2.COLOR_BGR2RGB"] [], Ok code);
         (Call "cv2.cvtColor" [VNone; code] [], Raise e) ]
       (Raise e)).
Proof.
  intros H1 H2 H3 H4.
  assert (Hb : first_frame_rgb L s f =
    Outcome f4
      [ (Call "cv2.VideoCapture" [VStr (labelled_video_path s)] [], Ok vc);
        (Call ".read" [vc] [], Ok (VTuple [b; frame]));
        (Call "getattr" [VStr "cv2.COLOR_BGR2RGB"] [], Ok code);
        (Call "cv2.cvtColor" [frame; code] [], r) ]
      r).
  { apply extern_call_responds in H1, H2, H3, H4.
    unfold first_frame_rgb, method, attr.
    change ("." +:+ "read") with ".read".
    rewrite (bind_ok _ _ _ vc) by (now rewrite H1). rewrite H1. cbn [fs trace res].
    rewrite (bind_ok _ _ _ (VTuple [b; frame])) by (now rewrite H2). rewrite H2.
    cbn [fs trace res].
    rewrite (bind_ok _ _ _ (b, frame)) by reflexivity. cbn [fs trace res unpack2 iter bind ret].
    rewrite (bind_ok _ _ _ code) by (now rewrite H3). rewrite H3. cbn [fs trace res].
    rewrite H4. reflexivity. }
  split; [exact Hb|].
  intros Ha Hm -> ->.
  apply import_responds in Ha, Hm.
  unfold video_display_cell.
  rewrite (bind_ok _ _ _ tt) by (now rewrite Ha). rewrite Ha. cbn [fs trace res].
  rewrite (bind_ok _ _ _ tt) by (now rewrite Hm). rewrite Hm. cbn [fs trace res].
  rewrite (bind_raise _ _ _ e) by (now rewrite Hb). rewrite Hb. reflexivity.
Qed.

Lemma first_frame_unchecked_witness :
  video_display_cell Demo.colab shipped Demo.project_no_video =
    Outcome Demo.project_no_video
      [ (Call "__import__" [VStr "cv2"] [], Ok VNone);
        (Call "__import__" [VStr "matplotlib.pyplot"] [], Ok VNone);
        (Call "cv2.VideoCapture" [VStr (labelled_video_path shipped)] [], Ok (VObj 20));
        (Call ".read" [VObj 20] [], Ok (VTuple [VBool false; VNone]));
        (Call "getattr" [VStr "cv2.COLOR_BGR2RGB"] [], Ok (VInt 4));
        (Call "cv2.cvtColor" [VNone; VInt 4] [], Raise (LibError "cv2.error")) ]
      (Raise (LibError "cv2.error")).
Proof.
  apply (proj2 (first_frame_unchecked Demo.colab shipped
                  Demo.project_no_video Demo.project_no_video Demo.project_no_video
                  Demo.project_no_video Demo.project_no_video Demo.project_no_video
                  Demo.project_no_video
                  VNone VNone (VObj 20) (VBool false) VNone (VInt 4)
                  (Raise (LibError "cv2.error")) (LibError "cv2.error")
                  ltac:(reflexivity) ltac:(reflexivity) ltac:(reflexivity) ltac:(reflexivity)));
    reflexivity.
Defined.

(** ** Calls determined by responses *)

Section Determined.













End Determined.



(** ** The names of the calls of a run that completes *)

Section Shape.















End Shape.


Section ShapeCells.

Context (L : library) (s : settings).








End ShapeCells.

(** ** The rounds of the loop and the axes *)





Section PinnedRounds.

Context (L : library) (s : settings).






End PinnedRounds.




(** * More about the cells *)

(** ** The read-modify-write and the other files *)

Lemma path_config_file_ne_pose_cfg_path (s : settings) : path_config_file s <> pose_cfg_path s.
Proof.
  unfold path_config_file, pose_cfg_path. intros H.
  apply append_inj_l, append_inj_l in H. discriminate H.
Qed.

Lemma rmw_frame (L : library) (s : settings) f q :
  q <> pose_cfg_path s -> fs (pose_cfg_rmw L s f) !! q = f !! q.
Proof.
  intros Hq. destruct (f !! pose_cfg_path s) as [text|] eqn:H.
  - destruct (yaml_safe_load L text) as [v|e] eqn:E.
    + destruct (classic_dict v) as [[d ->]|Hv].
      * rewrite (rmw_mapping L s f text d H E). simpl. now apply lookup_insert_ne.
      * now rewrite (rmw_not_a_mapping L s f text v).
    + now rewrite (rmw_load_raises L s f text e).
  - now rewrite rmw_missing.
Qed.

(** X1.  Whatever happens in the read-modify-write (missing file, parse
    error, value that is no mapping, failing or successful dump), every file
    other than pose_cfg.yaml is left as it was; in particular config.yaml and
    the checkpoint named in init_weights are never written. *)
Theorem pose_cfg_rmw_spares_other_files (L : library) (s : settings) (f : gmap string string) :
  (forall q, q <> pose_cfg_path s -> fs (pose_cfg_rmw L s f) !! q = f !! q) /\
  fs (pose_cfg_rmw L s f) !! path_config_file s = f !! path_config_file s /\
  fs (pose_cfg_rmw L s f) !! checkpoint s = f !! checkpoint s.
Proof.
  repeat apply conj.
  - intros q. apply rmw_frame.
  - apply rmw_frame, path_config_file_ne_pose_cfg_path.
  - apply rmw_frame, checkpoint_ne_pose_cfg_path.
Qed.

Lemma pose_cfg_rmw_spares_other_files_witness :
  fs (pose_cfg_rmw Demo.colab shipped Demo.project) !! hist_path = Demo.project !! hist_path.
Proof.
  apply (proj1 (pose_cfg_rmw_spares_other_files Demo.colab shipped Demo.project)).
  intros H. vm_compute in H. discriminate H.
Defined.

(** X2.  The read-modify-write writes only what it has loaded: either
    pose_cfg.yaml existed and parsed to a mapping, or the read-modify-write
    raised, made no call of yaml.dump and left the whole file system as it
    was (the file is not even truncated). *)
Theorem pose_cfg_rmw_writes_only_after_load (L : library) (s : settings)
    (f : gmap string string) :
  (exists text d, f !! pose_cfg_path s = Some text /\ yaml_safe_load L text = Ok (VDict d)) \/
  (fs (pose_cfg_rmw L s f) = f /\
   is_ok (res (pose_cfg_rmw L s f)) = false /\
   Forall (fun c => fn c <> "yaml.dump") (calls (pose_cfg_rmw L s f))).
Proof.
  destruct (f !! pose_cfg_path s) as [text|] eqn:H.
  - destruct (yaml_safe_load L text) as [v|e] eqn:E.
    + destruct (classic_dict v) as [[d ->]|Hv].
      * left. eauto.
      * right. rewrite (rmw_not_a_mapping L s f text v H E Hv).
        repeat split. repeat constructor. discriminate.
    + right. rewrite (rmw_load_raises L s f text e H E).
      repeat split. repeat constructor. discriminate.
  - right. rewrite (rmw_missing L s f H). repeat split. constructor.
Qed.

(** X3.  Running the read-modify-write again is harmless.  When the first
    run succeeded and the loader reads back what the dumper wrote, a second
    run makes the same two calls with the same arguments, succeeds, and
    leaves the file system as the first run left it.  The value that
    init_weights had before does not matter: the assignment overwrites it. *)
Theorem pose_cfg_rmw_idempotent (L : library) (s : settings)
    (f : gmap string string) (text text' : string) (d : gmap key value) :
  f !! pose_cfg_path s = Some text ->
  yaml_safe_load L text = Ok (VDict d) ->
  yaml_dump L (VDict (updated s d)) = (text', None) ->
  yaml_safe_load L text' = Ok (VDict (updated s d)) ->
  calls (pose_cfg_rmw L s (fs (pose_cfg_rmw L s f))) = calls (pose_cfg_rmw L s f) /\
  res (pose_cfg_rmw L s (fs (pose_cfg_rmw L s f))) = Ok VNone /\
  fs (pose_cfg_rmw L s (fs (pose_cfg_rmw L s f))) = fs (pose_cfg_rmw L s f) /\
  (forall v, updated s (<[KStr "init_weights" := v]> d) = updated s d).
Proof.
  intros H E D E'.
  assert (Hu : updated s (updated s d) = updated s d).
  { unfold updated. apply insert_insert_eq. }
  rewrite (rmw_mapping L s f text d H E). simpl. rewrite D. simpl.
  rewrite (rmw_mapping L s _ text' (updated s d)); [|apply lookup_insert_eq|exact E'].
  simpl. unfold dump_call. rewrite Hu, D. simpl.
  repeat split.
  - apply insert_insert_eq.
  - intros v. unfold updated. apply insert_insert_eq.
Qed.

Lemma pose_cfg_rmw_idempotent_witness :
  calls (pose_cfg_rmw Demo.faithful shipped
           (fs (pose_cfg_rmw Demo.faithful shipped Demo.project_imagenet))) =
    calls (pose_cfg_rmw Demo.faithful shipped Demo.project_imagenet) /\
  fs (pose_cfg_rmw Demo.faithful shipped
        (fs (pose_cfg_rmw Demo.faithful shipped Demo.project_imagenet))) =
    fs (pose_cfg_rmw Demo.faithful shipped Demo.project_imagenet).
Proof.
  destruct (pose_cfg_rmw_idempotent Demo.faithful shipped Demo.project_imagenet
              "init_weights: imagenet" ("init_weights: " +:+ checkpoint shipped)
              {[ KStr "init_weights" := VStr "imagenet" ]})
    as (Hc & _ & Hf & _).
  - reflexivity.
  - reflexivity.
  - reflexivity.
  - reflexivity.
  - split; [exact Hc | exact Hf].
Defined.

(** ** Paths and keyword arguments *)

Lemma append_cons (c : Ascii.ascii) (a b : string) : String c a +:+ b = String c (a +:+ b).
Proof. reflexivity. Qed.

Lemma components_nonempty (p : string) : components p <> [].
Proof.
  destruct p as [|a p]; simpl; [discriminate|].
  destruct (Ascii.eqb a _); [discriminate|]. destruct (components p); discriminate.
Qed.

Lemma components_app_slash (a b : string) :
  components (a +:+ "/" +:+ b) = (components a ++ components b)%list.
Proof.
  induction a as [|c a IH]; [reflexivity|].
  rewrite append_cons. simpl. destruct (Ascii.eqb c _).
  - now rewrite IH.
  - rewrite IH. destruct (components a) as [|c0 cs] eqn:E; [|reflexivity].
    now destruct (components_nonempty a).
Qed.

(** Strings without a slash are their own single component. *)
Lemma whole_cons (c : Ascii.ascii) (p : string) :
  Ascii.eqb c (Ascii.ascii_of_nat 47) = false ->
  components p = [p] -> components (String c p) = [String c p].
Proof. intros Hc Hp. simpl. now rewrite Hc, Hp. Qed.

Lemma whole_inv (c : Ascii.ascii) (p : string) :
  components (String c p) = [String c p] ->
  Ascii.eqb c (Ascii.ascii_of_nat 47) = false /\ components p = [p].
Proof.
  simpl. destruct (Ascii.eqb c _); [discriminate|].
  destruct (components p) as [|c0 cs] eqn:E.
  - now destruct (components_nonempty p).
  - intros [= -> ->]. auto.
Qed.

Lemma whole_app (a b : string) :
  components a = [a] -> components b = [b] -> components (a +:+ b) = [a +:+ b].
Proof.
  induction a as [|c a IH]; intros Ha Hb; [exact Hb|].
  rewrite append_cons. apply whole_inv in Ha as [Hc Ha]. apply whole_cons; auto.
Qed.

Lemma pretty_N_go_whole (x : N) (s : string) :
  components s = [s] -> components (pretty_N_go x s) = [pretty_N_go x s].
Proof.
  revert s. induction (N.lt_wf_0 x) as [x _ IH]; intros s Hs.
  assert (x = 0 \/ 0 < x)%N as [->|Hx] by lia.
  - now rewrite pretty_N_go_0.
  - rewrite pretty_N_go_step by exact Hx. apply IH.
    + now apply N.div_lt.
    + apply whole_cons; [|exact Hs]. unfold pretty_N_char.
      repeat case_match; reflexivity.
Qed.

Lemma pretty_positive_whole (x : positive) : components (pretty x) = [pretty x].
Proof.
  unfold pretty, pretty_positive, pretty, pretty_N.
  destruct (decide (N.pos x = 0)%N); [reflexivity|]. now apply pretty_N_go_whole.
Qed.

(** The digits of an integer hold no slash. *)
Lemma pretty_Z_whole (n : Z) : components (pretty n) = [pretty n].
Proof.
  destruct n as [|x|x]; [reflexivity | apply pretty_positive_whole |].
  change (pretty (Z.neg x)) with (String (Ascii.ascii_of_nat 45) (pretty x)).
  apply whole_cons; [reflexivity | apply pretty_positive_whole].
Qed.

Ltac not_in_list H :=
  repeat (apply elem_of_cons in H as [H|H];
          [first [discriminate H | rewrite append_cons in H; discriminate H]|]);
  now apply elem_of_nil in H.

Section Below.

Context (s : settings).

Hypothesis project_folder_stays : ".." ∉ components (ProjectFolderName s).

Lemma below_path_config_file : below destination_folder (path_config_file s).
Proof.
  exists (components (ProjectFolderName s) ++ ["config.yaml"])%list. split.
  - change (path_config_file s)
      with (destination_folder +:+ "/" +:+ ProjectFolderName s +:+ "/" +:+ "config.yaml").
    now rewrite !components_app_slash.
  - intros H. apply elem_of_app in H as [H|H]; [contradiction|]. not_in_list H.
Qed.

Lemma below_checkpoint : below destination_folder (checkpoint s).
Proof.
  exists (components (ProjectFolderName s) ++
          ["old_dlc-models"; "iteration-5"; "ss_vs_sscwJan30-trainset95shuffle2"; "train";
           "snapshot-100000"])%list.
  split.
  - change (checkpoint s)
      with (destination_folder +:+ "/" +:+ ProjectFolderName s +:+ "/" +:+
            "old_dlc-models/iteration-5/ss_vs_sscwJan30-trainset95shuffle2/train/snapshot-100000").
    now rewrite !components_app_slash.
  - intros H. apply elem_of_app in H as [H|H]; [contradiction|]. not_in_list H.
Qed.

Lemma below_pose_cfg_path : below destination_folder (pose_cfg_path s).
Proof.
  exists (components (ProjectFolderName s) ++
          ["dlc-models"; "iteration-5";
           "ss_vs_sscwJan30-trainset95shuffle" +:+ pretty (shuffle s);
           "train"; "pose_cfg.yaml"])%list.
  split.
  - change (pose_cfg_path s)
      with (destination_folder +:+ "/" +:+ ProjectFolderName s +:+ "/" +:+
            "dlc-models/iteration-5" +:+ "/" +:+
            ("ss_vs_sscwJan30-trainset95shuffle" +:+ pretty (shuffle s)) +:+ "/" +:+
            "train/pose_cfg.yaml").
    rewrite !components_app_slash.
    rewrite (whole_app "ss_vs_sscwJan30-trainset95shuffle" _ eq_refl (pretty_Z_whole _)).
    reflexivity.
  - intros H. apply elem_of_app in H as [H|H]; [contradiction|]. not_in_list H.
Qed.

End Below.

Lemma below_labelled_video_path (s : settings) :
  below destination_folder (labelled_video_path s).
Proof.
  exists ["data"; "behavior-videos";
          "day0croppedshortdownsampledDLC_resnet50_ss_vs_sscwJan30shuffle" +:+
          pretty (shuffle s) +:+ "_100100_p60_labeled.mp4"].
  split.
  - change (labelled_video_path s)
      with (destination_folder +:+ "/" +:+ "data/behavior-videos" +:+ "/" +:+
            ("day0croppedshortdownsampledDLC_resnet50_ss_vs_sscwJan30shuffle" +:+
             pretty (shuffle s) +:+ "_100100_p60_labeled.mp4")).
    rewrite !components_app_slash.
    rewrite (whole_app "day0croppedshortdownsampledDLC_resnet50_ss_vs_sscwJan30shuffle" _
               eq_refl (whole_app _ "_100100_p60_labeled.mp4" (pretty_Z_whole _) eq_refl)).
    reflexivity.
  - intros H. not_in_list H.
Qed.

Lemma below_images : Forall (below destination_folder) images.
Proof.
  unfold images.
  repeat match goal with
         | |- Forall _ (_ :: _) => apply Forall_cons_2
         | |- Forall _ [] => apply Forall_nil_2
         end;
    (eexists; split; [vm_compute; reflexivity | intros H; not_in_list H]).
Qed.

Lemma cells_copytree (L : library) (s : settings) :
  Forall (emits (fun c => fn c = "shutil.copytree" ->
                          args c = [VStr source_folder; VStr destination_folder]))
         (cells L s).
Proof. cells_emit name_side. Qed.

(** X4.  The paths that the later cells consume stay below the folder that
    the Drive cell copies the project to, provided the project folder name
    holds no ".." component: config.yaml, pose_cfg.yaml, the checkpoint, the
    four plot images, the labelled video and the video folder all go through
    the components of the destination given to shutil.copytree and never
    climb back up, for every shuffle.  (A project folder name such as "../.."
    does leave the folder.)  In every run, shutil.copytree is only called with
    the fixed source and that destination. *)
Theorem paths_inside_destination_folder (L : library) (s : settings) (f : gmap string string) :
  ".." ∉ components (ProjectFolderName s) ->
  Forall (fun c => fn c = "shutil.copytree" ->
                   args c = [VStr source_folder; VStr destination_folder])
         (calls (run_all L s f)) /\
  Forall (below destination_folder)
         (path_config_file s :: pose_cfg_path s :: checkpoint s ::
          labelled_video_path s :: images) /\
  (exists p, videofile_path = VList [VStr p] /\ below destination_folder p) /\
  ~ below destination_folder
      (path_config_file (Settings "../.." (VideoType s) (shuffle s))).
Proof.
  intros HP. repeat apply conj.
  - apply (emits_run _ _ (cells_copytree L s)).
  - apply Forall_cons_2; [now apply below_path_config_file|].
    apply Forall_cons_2; [now apply below_pose_cfg_path|].
    apply Forall_cons_2; [now apply below_checkpoint|].
    apply Forall_cons_2; [apply below_labelled_video_path|].
    apply below_images.
  - eexists. split; [reflexivity|].
    eexists. split; [vm_compute; reflexivity | intros H; not_in_list H].
  - intros (rest & Hc & Hn). vm_compute in Hc. injection Hc as <-.
    apply Hn. apply elem_of_cons. now left.
Qed.

Lemma paths_inside_destination_folder_witness :
  Forall (below destination_folder)
         (path_config_file shipped :: pose_cfg_path shipped :: checkpoint shipped ::
          labelled_video_path shipped :: images).
Proof.
  apply (paths_inside_destination_folder Demo.colab shipped Demo.project).
  change (components (ProjectFolderName shipped)) with ["workshop-network-2025"].
  intros H. apply list_elem_of_singleton in H. discriminate H.
Defined.

Ltac kwarg_side :=
  let H := fresh in
  intros H;
  first [ discriminate H
        | repeat split;
          let v := fresh "v" in let Hv := fresh "Hv" in
          intros v Hv; vm_compute in Hv |- *; congruence ].

Lemma cells_kwargs (L : library) (s : settings) :
  Forall (emits (fun c => is_dlc c = true ->
            (forall v, kwarg "shuffle" c = Some v -> v = VInt (shuffle s)) /\
            (forall v, kwarg "Shuffles" c = Some v -> v = VTuple [VInt (shuffle s)]) /\
            (forall v, kwarg "videotype" c = Some v -> v = VStr (VideoType s))))
         (cells L s).
Proof. cells_emit kwarg_side. Qed.

(** X5.  One shuffle and one video type go through the whole pipeline: in
    every run, a DeepLabCut call that takes the keyword shuffle gets the
    [shuffle] that also selects the pose_cfg file, one that takes Shuffles
    gets the one-element tuple of it, and one that takes videotype gets
    [VideoType]; train_network, analyze_videos, plot_trajectories and
    create_labeled_video do take shuffle, and the last three take the video
    folder as second argument. *)
Theorem one_shuffle_for_the_pipeline (L : library) (s : settings) (f : gmap string string) :
  Forall (fun c => is_dlc c = true ->
            (forall v, kwarg "shuffle" c = Some v -> v = VInt (shuffle s)) /\
            (forall v, kwarg "Shuffles" c = Some v -> v = VTuple [VInt (shuffle s)]) /\
            (forall v, kwarg "videotype" c = Some v -> v = VStr (VideoType s)))
         (calls (run_all L s f)) /\
  Forall (fun c => kwarg "shuffle" c = Some (VInt (shuffle s)))
         [train_network_call s; analyze_videos_call s; plot_trajectories_call s;
          create_labeled_video_call s] /\
  kwarg "Shuffles" (evaluate_network_call s) = Some (VTuple [VInt (shuffle s)]) /\
  Forall (fun c => args c !! 1%nat = Some videofile_path /\
                   kwarg "videotype" c = Some (VStr (VideoType s)))
         [analyze_videos_call s; plot_trajectories_call s; create_labeled_video_call s].
Proof.
  repeat apply conj.
  - apply (emits_run _ _ (cells_kwargs L s)).
  - repeat constructor.
  - reflexivity.
  - repeat constructor.
Qed.

(** ** The zip of the loop *)

Lemma zip3_length {A B C} (xs : list A) (ys : list B) (zs : list C) :
  length (zip3 xs ys zs) = Nat.min (length xs) (Nat.min (length ys) (length zs)).
Proof.
  revert ys zs. induction xs as [|x xs IH]; intros [|y ys] [|z zs]; simpl; try reflexivity.
  now rewrite IH.
Qed.

(** ** The rounds of the loop over the plots *)

Lemma res_ok_is_ok {A} (r : result A) (a : A) : r = Ok a -> is_ok r = true.
Proof. now intros ->. Qed.

Lemma is_ok_unit (r : result unit) : is_ok r = true -> r = Ok tt.
Proof. destruct r as [[]|]; [reflexivity | discriminate]. Qed.

Lemma show_image_ok L it f :
  res (show_image L it f) = Ok tt ->
  exists img,
    calls (show_image L it f) = plot_round it img /\
    (Call "Image.open" [VStr it.1.2] [], Ok img) ∈ trace (show_image L it f).
Proof.
  destruct it as [[ax image] title]. unfold show_image, method. intros H.
  apply res_ok_is_ok in H.
  destruct (bind_is_ok _ _ _ H) as (img & E1 & H1).
  rewrite (bind_ok _ _ _ _ E1). rewrite (extern_call_inv _ _ _ _ E1) in *.
  cbn [fs trace res] in *.
  destruct (bind_is_ok _ _ _ H1) as (v2 & E2 & H2).
  rewrite (bind_ok _ _ _ _ E2). rewrite (extern_call_inv _ _ _ _ E2) in *.
  cbn [fs trace res] in *.
  destruct (bind_is_ok _ _ _ H2) as (v3 & E3 & H3).
  rewrite (bind_ok _ _ _ _ E3). rewrite (extern_call_inv _ _ _ _ E3) in *.
  cbn [fs trace res] in *.
  destruct (bind_is_ok _ _ _ H3) as (v4 & E4 & H4).
  rewrite (bind_ok _ _ _ _ E4). rewrite (extern_call_inv _ _ _ _ E4) in *.
  exists img. split; [reflexivity|]. simpl. set_solver.
Qed.

Lemma for_rounds L (l : list (value * string * string)) f :
  res (for_ l (show_image L) f) = Ok tt ->
  exists imgs : list value,
    calls (for_ l (show_image L) f) = concat (zip_with plot_round l imgs) /\
    Forall2 (fun it img =>
               (Call "Image.open" [VStr it.1.2] [], Ok img) ∈ trace (for_ l (show_image L) f))
            l imgs.
Proof.
  revert f. induction l as [|it l IH]; intros f H.
  - exists []. split; [reflexivity | constructor].
  - simpl in H |- *. apply res_ok_is_ok in H.
    destruct (bind_is_ok _ _ _ H) as ([] & E1 & H1).
    apply is_ok_unit in H1.
    destruct (show_image_ok L it f E1) as (img & Hc & Hin).
    destruct (IH _ H1) as (imgs & Hcs & Hall).
    exists (img :: imgs). rewrite (bind_ok _ _ _ _ E1). unfold calls in *. cbn [trace].
    split.
    + rewrite fmap_app, Hc, Hcs. reflexivity.
    + constructor.
      * apply elem_of_app. now left.
      * eapply Forall2_impl; [exact Hall|]. intros it' img' Hin'.
        apply elem_of_app. now right.
Qed.

(** X7.  When the loop over the plots completes, its calls are exactly one
    round per triple of the zip, in order: for the i-th axes, Image.open on
    the i-th path, then imshow on these axes of the image that this very
    Image.open returned, then set_title on these axes with the i-th title,
    then axis('off') on these axes.  No image is shown on the axes of another
    plot and no title goes to another plot. *)
Theorem show_images_rounds (L : library) (axs : list value) (f : gmap string string) :
  res (show_images L axs f) = Ok tt ->
  exists imgs : list value,
    calls (show_images L axs f) = concat (zip_with plot_round (zip3 axs images titles) imgs) /\
    Forall2 (fun it img =>
               (Call "Image.open" [VStr it.1.2] [], Ok img) ∈ trace (show_images L axs f))
            (zip3 axs images titles) imgs.
Proof. unfold show_images. apply for_rounds. Qed.

Lemma show_images_rounds_witness :
  exists imgs : list value,
    calls (show_images Demo.colab [VObj 10; VObj 11; VObj 12; VObj 13] Demo.project) =
      concat (zip_with plot_round
                (zip3 [VObj 10; VObj 11; VObj 12; VObj 13] images titles) imgs) /\
    Forall2 (fun it img =>
               (Call "Image.open" [VStr it.1.2] [], Ok img) ∈
                 trace (show_images Demo.colab [VObj 10; VObj 11; VObj 12; VObj 13] Demo.project))
            (zip3 [VObj 10; VObj 11; VObj 12; VObj 13] images titles) imgs.
Proof.
  apply show_images_rounds. reflexivity.
Defined.

(** ** Axes, plots and titles that do not match in number *)

Lemma zip3_plots_columns (axs : list value) :
  (zip3 axs images titles).*1.*1 = take 4 axs /\
  (zip3 axs images titles).*2 = take (length axs) titles.
Proof. destruct axs as [|? [|? [|? [|? [|? ?]]]]]; split; reflexivity. Qed.

Lemma rounds_columns (l : list (value * string * string)) (imgs : list value) :
  length l = length imgs ->
  omap drawn_axes (concat (zip_with plot_round l imgs)) = l.*1.*1 /\
  omap title_set (concat (zip_with plot_round l imgs)) = l.*2 /\
  length (concat (zip_with plot_round l imgs)) = (4 * length l)%nat.
Proof.
  revert imgs. induction l as [|[[ax image] title] l IH]; intros [|img imgs] Hl;
    try discriminate Hl; [repeat split|].
  injection Hl as Hl. destruct (IH imgs Hl) as (Hd & Ht & Hn).
  cbn [zip_with concat]. rewrite !omap_app, length_app, Hd, Ht, Hn.
  repeat split. simpl. lia.
Qed.

(** X6.  The loop has no error of its own when the axes, the plots and the
    titles do not match in number: when every library call it makes returns,
    it completes, whatever the number of axes.  It then draws on the first
    four axes and on no other, sets the first titles, one per axes, and makes
    four calls for each of these rounds: with fewer axes than plots the last
    plots and titles are skipped, with more the last axes stay empty. *)
Theorem loop_stops_at_shortest (L : library) (axs : list value) (f : gmap string string) :
  Forall returned (trace (show_images L axs f)) ->
  res (show_images L axs f) = Ok tt /\
  drawn (show_images L axs f) = take 4 axs /\
  titled (show_images L axs f) = take (length axs) titles /\
  length (calls (show_images L axs f)) = (4 * Nat.min (length axs) 4)%nat.
Proof.
  intros H. pose proof (show_images_completes L axs f H) as Hok.
  split; [exact Hok|].
  unfold show_images in *.
  destruct (for_rounds L _ f Hok) as (imgs & Hc & Hall).
  apply Forall2_length in Hall.
  destruct (rounds_columns _ _ Hall) as (Hd & Ht & Hn).
  destruct (zip3_plots_columns axs) as [Ha Hb].
  unfold drawn, titled. rewrite Hc, Hd, Ht, Hn, Ha, Hb, zip3_length.
  repeat split.
Qed.

Lemma loop_stops_at_shortest_witness :
  res (show_images Demo.colab [VObj 10; VObj 11] Demo.project) = Ok tt /\
  drawn (show_images Demo.colab [VObj 10; VObj 11] Demo.project) =
    take 4 [VObj 10; VObj 11] /\
  titled (show_images Demo.colab [VObj 10; VObj 11] Demo.project) =
    take (length [VObj 10; VObj 11]) titles /\
  length (calls (show_images Demo.colab [VObj 10; VObj 11] Demo.project)) =
    (4 * Nat.min (length [VObj 10; VObj 11]) 4)%nat.
Proof.
  apply loop_stops_at_shortest. vm_compute. repeat constructor.
Defined.

(** ** The plot files that are opened *)

Section Opened.

Lemma omap_opened_none (l : list call) :
  Forall (fun c => is_image_open c = false) l -> omap opened_path l = [].
Proof.
  induction 1 as [|c l Hc _ IH]; [reflexivity|].
  simpl. unfold opened_path at 1. now rewrite Hc.
Qed.

Lemma opened_silent {A} (m : M A) f :
  emits (fun c => is_image_open c = false) m -> opened (m f) = [].
Proof. intros H. apply omap_opened_none, H. Qed.

Lemma opened_bind_ok {A B} (m : M A) (k : A -> M B) f a :
  res (m f) = Ok a ->
  opened (bind m k f) = (opened (m f) ++ opened (k a (fs (m f))))%list.
Proof.
  intros H. rewrite (bind_ok _ _ _ _ H). unfold opened, calls. cbn [trace].
  now rewrite fmap_app, omap_app.
Qed.

Lemma opened_bind_raise {A B} (m : M A) (k : A -> M B) f e :
  res (m f) = Raise e -> opened (bind m k f) = opened (m f).
Proof. intros H. now rewrite (bind_raise _ _ _ _ H). Qed.

Lemma opens_silent_then {A B} (l : list string) (m : M A) (k : A -> M B) :
  emits (fun c => is_image_open c = false) m -> (forall a, opens_within l (k a)) ->
  opens_within l (bind m k).
Proof.
  intros Hm Hk f. destruct (res (m f)) as [a|e] eqn:E.
  - rewrite (opened_bind_ok _ _ _ _ E), (opened_silent _ _ Hm). apply Hk.
  - rewrite (opened_bind_raise _ _ _ _ E), (opened_silent _ _ Hm). apply prefix_nil.
Qed.

Lemma opens_then_silent {A B} (l : list string) (m : M A) (k : A -> M B) :
  opens_within l m -> (forall a, emits (fun c => is_image_open c = false) (k a)) ->
  opens_within l (bind m k).
Proof.
  intros Hm Hk f. destruct (res (m f)) as [a|e] eqn:E.
  - rewrite (opened_bind_ok _ _ _ _ E), (opened_silent _ _ (Hk a)), app_nil_r. apply Hm.
  - rewrite (opened_bind_raise _ _ _ _ E). apply Hm.
Qed.

Context (L : library).

Lemma opened_show_image it f : opened (show_image L it f) = [it.1.2].
Proof.
  destruct it as [[ax image] title]. unfold show_image.
  assert (Hk : forall img,
    emits (fun c => is_image_open c = false)
          (method L ax "imshow" [img] [] ;;;
           method L ax "set_title" [VStr title] [] ;;;
           method L ax "axis" [VStr "off"] [] ;;; ret tt)).
  { intros img. emits_with name_side. }
  destruct (res (extern_call L (Call "Image.open" [VStr image] []) f)) as [img|e] eqn:E.
  - rewrite (opened_bind_ok _ _ _ _ E), (opened_silent _ _ (Hk img)). reflexivity.
  - rewrite (opened_bind_raise _ _ _ _ E). reflexivity.
Qed.

Lemma opened_for (l : list (value * string * string)) f :
  opened (for_ l (show_image L) f) `prefix_of` l.*1.*2 /\
  (res (for_ l (show_image L) f) = Ok tt -> opened (for_ l (show_image L) f) = l.*1.*2).
Proof.
  revert f. induction l as [|it l IH]; intros f; simpl.
  - split; [apply prefix_nil | reflexivity].
  - destruct (res (show_image L it f)) as [[]|e] eqn:E.
    + rewrite (opened_bind_ok _ _ _ _ E), opened_show_image, (bind_ok _ _ _ _ E).
      cbn [res]. destruct (IH (fs (show_image L it f))) as [Hp Hok]. split.
      * now apply (prefix_app [it.1.2]).
      * intros H. now rewrite (Hok H).
    + rewrite (opened_bind_raise _ _ _ _ E), opened_show_image, (bind_raise _ _ _ _ E).
      cbn [res]. split; [|discriminate].
      apply (prefix_app_r [it.1.2] [it.1.2] (l.*1.*2)). reflexivity.
Qed.

Lemma zip3_plots_paths (axs : list value) :
  (zip3 axs images titles).*1.*2 = take (length axs) images.
Proof. destruct axs as [|? [|? [|? [|? [|? ?]]]]]; reflexivity. Qed.

Lemma take_prefix_of {A} (n : nat) (l : list A) : take n l `prefix_of` l.
Proof. exists (drop n l). now rewrite take_drop. Qed.

Lemma opens_plot_display : opens_within images (plot_display_cell L).
Proof.
  unfold plot_display_cell.
  repeat first
    [ apply opens_silent_then; [solve [emits_with name_side] | intros ?]
    | match goal with
      | |- opens_within _ (let '(_, _) := ?p in _) => destruct p
      end ].
  apply opens_then_silent; [| intros _; emits_with name_side].
  intros f. unfold show_images.
  etransitivity; [apply opened_for|]. rewrite zip3_plots_paths. apply take_prefix_of.
Qed.

Lemma opens_run_all (s : settings) : opens_within images (run_all L s).
Proof.
  unfold run_all, cells, run.
  repeat (apply opens_silent_then;
          [ solve [ unfold install_cell, gpu_check_cell, drive_cell, variables_cell,
                      import_cell, path_cell, create_training_dataset_cell, pose_cfg_cell,
                      train_network_cell, evaluate_network_cell, analyze_videos_cell,
                      mpld3_cell, plot_trajectories_cell;
                    emits_with name_side ]
          | intros _ ]).
  apply opens_then_silent; [apply opens_plot_display|].
  intros _. unfold create_labeled_video_cell, video_display_cell. emits_with name_side.
Qed.

End Opened.

(** X8.  The plot files are opened in the order plot-likelihood.png,
    hist.png, plot.png, trajectory.png and never twice: in every run of the
    notebook the paths given to Image.open form a prefix of that list (no
    other cell opens an image); the loop itself opens a prefix of the first
    paths, one per axes, and all of them when it completes. *)
Theorem plots_opened_in_order (L : library) (s : settings) (f : gmap string string)
    (axs : list value) :
  opened (run_all L s f) `prefix_of` images /\
  opened (show_images L axs f) `prefix_of` take (length axs) images /\
  (res (show_images L axs f) = Ok tt ->
   opened (show_images L axs f) = take (length axs) images).
Proof.
  repeat apply conj.
  - apply opens_run_all.
  - unfold show_images. rewrite <- zip3_plots_paths. apply opened_for.
  - unfold show_images. rewrite <- zip3_plots_paths. apply opened_for.
Qed.

Lemma plots_opened_in_order_witness :
  opened (show_images Demo.colab [VObj 10; VObj 11] Demo.project) =
  take (length [VObj 10; VObj 11]) images.
Proof.
  apply (proj2 (proj2 (plots_opened_in_order Demo.colab shipped Demo.project [VObj 10; VObj 11]))).
  reflexivity.
Defined.

(** ** Training and the edit of pose_cfg.yaml *)

Section TrainingAfterEdit.

Context (L : library) (s : settings).

Lemma rmw_ok_inv f v :
  res (pose_cfg_rmw L s f) = Ok v ->
  exists text d,
    f !! pose_cfg_path s = Some text /\
    yaml_safe_load L text = Ok (VDict d) /\
    trace (pose_cfg_rmw L s f) = [(load_call s, Ok (VDict d)); (dump_call s d, Ok VNone)].
Proof.
  destruct (f !! pose_cfg_path s) as [text|] eqn:H.
  - destruct (yaml_safe_load L text) as [w|e] eqn:E.
    + destruct (classic_dict w) as [[d ->]|Hw].
      * rewrite (rmw_mapping L s f text d H E). simpl.
        destruct (yaml_dump L (VDict (updated s d))).2; [discriminate|].
        intros _. exists text, d. auto.
      * rewrite (rmw_not_a_mapping L s f text w H E Hw). discriminate.
    + rewrite (rmw_load_raises L s f text e H E). discriminate.
  - rewrite (rmw_missing L s f H). discriminate.
Qed.

Lemma pose_cfg_cell_ok f :
  res (pose_cfg_cell L s f) = Ok tt ->
  exists m d,
    trace (pose_cfg_cell L s f) =
      [ (Call "__import__" [VStr "yaml"] [], Ok m);
        (load_call s, Ok (VDict d));
        (dump_call s d, Ok VNone) ].
Proof.
  unfold pose_cfg_cell. intros H. apply res_ok_is_ok in H.
  destruct (bind_is_ok _ _ _ H) as ([] & E1 & H1).
  assert (Hi : exists m f', import_ L "yaml" f =
                 Outcome f' [(Call "__import__" [VStr "yaml"] [], Ok m)] (Ok tt)).
  { unfold import_ in E1.
    destruct (bind_is_ok _ _ _ (res_ok_is_ok _ _ E1)) as (m & Em & _).
    exists m, (extern L (Call "__import__" [VStr "yaml"] []) f).1.
    apply import_responds. unfold responds. unfold extern_call in Em. simpl in Em.
    destruct (extern L (Call "__import__" [VStr "yaml"] []) f) as [f' r]. simpl in *.
    now subst. }
  destruct Hi as (m & f' & Hi).
  rewrite (bind_ok _ _ _ _ E1). rewrite Hi in H1 |- *. cbn [fs trace res] in H1 |- *.
  unfold stmt in H1 |- *.
  destruct (bind_is_ok _ _ _ H1) as (v & Ev & _).
  rewrite (bind_ok _ _ _ _ Ev). cbn [fs trace res ret].
  destruct (rmw_ok_inv _ _ Ev) as (text & d & _ & _ & Ht).
  rewrite Ht. exists m, d. reflexivity.
Qed.

Lemma before_training_no_train :
  Forall (emits (fun c => fn c <> "deeplabcut.train_network")) (before_training L s).
Proof.
  unfold before_training. simpl.
  cells_emit ltac:(let H := fresh in intros H; vm_compute in H; discriminate H).
Qed.

Lemma trace_run_single (c : M unit) f :
  res (run [c] f) = Ok tt -> res (c f) = Ok tt /\ trace (run [c] f) = trace (c f).
Proof.
  simpl. unfold bind. destruct (res (c f)) as [[]|e]; simpl; [|discriminate].
  intros _. split; [reflexivity | apply app_nil_r].
Qed.

Lemma trace_from_training (cs : list (M unit)) f :
  exists r t, trace (run (stmt (train_network_cell L s) :: cs) f) = (train_network_call s, r) :: t.
Proof.
  assert (Hs : trace (stmt (train_network_cell L s) f) =
               [(train_network_call s, (extern L (train_network_call s) f).2)]).
  { destruct (res (train_network_cell L s f)) as [v|e] eqn:E.
    - now rewrite (stmt_ok _ _ _ E).
    - now rewrite (stmt_raise _ _ _ E). }
  change (run (stmt (train_network_cell L s) :: cs))
    with (stmt (train_network_cell L s) ;;; run cs).
  destruct (res (stmt (train_network_cell L s) f)) as [[]|e] eqn:E.
  - rewrite (bind_ok _ _ _ _ E). cbn [trace]. rewrite Hs. simpl. eauto.
  - rewrite (bind_raise _ _ _ _ E). cbn [trace]. rewrite Hs. eauto.
Qed.

Lemma before_training_split :
  before_training L s = (take 7 (cells L s) ++ [pose_cfg_cell L s])%list.
Proof. reflexivity. Qed.

End TrainingAfterEdit.

(** X9.  Training never starts on a pose configuration that was not
    rewritten: in every run in which deeplabcut.train_network is called, the
    call made just before it is the yaml.dump of the updated mapping to the
    pose_cfg.yaml of the same shuffle, and that dump returned without an
    exception. *)
Theorem training_follows_the_edit (L : library) (s : settings) (f : gmap string string) :
  train_network_call s ∈ calls (run_all L s f) ->
  exists (d : gmap key value) (t1 : list (call * result value)) (r : result value)
         (t3 : list (call * result value)),
    trace (run_all L s f) =
      (t1 ++ [(dump_call s d, Ok VNone); (train_network_call s, r)] ++ t3)%list.
Proof.
  unfold run_all. rewrite cells_split_training. intros Hin.
  destruct (res (run (before_training L s) f)) as [[]|e] eqn:E.
  - rewrite (run_app_ok _ _ _ E). cbn [trace].
    destruct (trace_from_training L s (after_training L s) (fs (run (before_training L s) f)))
      as (r & t3 & Ht).
    change ([stmt (train_network_cell L s)] ++ after_training L s)%list
      with (stmt (train_network_cell L s) :: after_training L s).
    rewrite Ht.
    rewrite before_training_split in E |- *.
    apply run_app_inv in E as (_ & E2 & Hb). rewrite Hb.
    apply trace_run_single in E2 as [E2 Hs]. rewrite Hs.
    destruct (pose_cfg_cell_ok L s _ E2) as (m & d & Hp). rewrite Hp.
    exists d,
      (trace (run (take 7 (cells L s)) f) ++
       [(Call "__import__" [VStr "yaml"] [], Ok m); (load_call s, Ok (VDict d))])%list,
      r, t3.
    rewrite <- !app_assoc. reflexivity.
  - rewrite (run_app_raise _ _ _ _ E) in Hin.
    pose proof (emits_run _ _ (before_training_no_train L s) f) as Hno.
    rewrite Forall_forall in Hno. now destruct (Hno _ Hin).
Qed.

Lemma training_follows_the_edit_witness :
  exists (d : gmap key value) (t1 : list (call * result value)) (r : result value)
         (t3 : list (call * result value)),
    trace (run_all Demo.colab shipped Demo.project) =
      (t1 ++ [(dump_call shipped d, Ok VNone); (train_network_call shipped, r)] ++ t3)%list.
Proof.
  apply training_follows_the_edit.
  apply (list_elem_of_lookup_2 _ 26%nat). reflexivity.
Defined.

(** ** The frame that is shown *)

Lemma splice_trace {X} (l1 l2 : list X) a b t c l4 l5 i l7 :
  (l1 ++ l2 ++ (a :: b :: t ++ [c]) ++ l4 ++ l5 ++ [i] ++ l7 =
   (l1 ++ l2) ++ a :: b :: t ++ c :: (l4 ++ l5) ++ i :: l7)%list.
Proof. simpl. now rewrite <- !app_assoc. Qed.

Section ShownFrame.

Context (L : library) (s : settings).

Lemma first_frame_ok f rgb :
  res (first_frame_rgb L s f) = Ok rgb ->
  exists vc resp frame code t,
    trace (first_frame_rgb L s f) =
      ((Call "cv2.VideoCapture" [VStr (labelled_video_path s)] [], Ok vc) ::
       (Call ".read" [vc] [], Ok resp) :: t ++
       [(Call "cv2.cvtColor" [frame; code] [], Ok rgb)])%list.
Proof.
  unfold first_frame_rgb, method, attr. intros H.
  destruct (bind_ok_inv _ _ _ _ H) as (vc & E1 & H1).
  destruct (bind_ok_inv _ _ _ _ H1) as (resp & E2 & H2).
  destruct (bind_ok_inv _ _ _ _ H2) as ([flag frame] & E3 & H3).
  destruct (bind_ok_inv _ _ _ _ H3) as (code & E4 & H4).
  rewrite (bind_ok _ _ _ _ E1). cbn [trace].
  rewrite (bind_ok _ _ _ _ E2). cbn [trace].
  rewrite (bind_ok _ _ _ _ E3). cbn [trace].
  rewrite (bind_ok _ _ _ _ E4). cbn [trace].
  rewrite (trace_extern_call_ok _ _ _ _ E1), (trace_extern_call_ok _ _ _ _ E2),
    (trace_extern_call_ok _ _ _ _ E4), (trace_extern_call_ok _ _ _ _ H4).
  exists vc, resp, frame, code. eexists (_ ++ [_])%list.
  simpl. rewrite <- app_assoc. reflexivity.
Qed.

End ShownFrame.

(** X10.  When the video display cell completes, what [ax.imshow] was given
    is the value that [cv2.cvtColor] returned, the capture that was read is
    the one [cv2.VideoCapture] returned for the labelled video of the
    shuffle, and these calls were made in this order. *)
Theorem shown_frame_is_converted_first_frame (L : library) (s : settings)
    (f : gmap string string) :
  res (video_display_cell L s f) = Ok tt ->
  exists (vc resp frame code rgb ax v : value) (t1 t2 t3 t4 : list (call * result value)),
    trace (video_display_cell L s f) =
      (t1 ++ (Call "cv2.VideoCapture" [VStr (labelled_video_path s)] [], Ok vc) ::
             (Call ".read" [vc] [], Ok resp) :: t2 ++
             (Call "cv2.cvtColor" [frame; code] [], Ok rgb) :: t3 ++
             (Call ".imshow" [ax; rgb] [], Ok v) :: t4)%list.
Proof.
  unfold video_display_cell, method. intros H.
  destruct (bind_ok_inv _ _ _ _ H) as (u1 & E1 & H1).
  destruct (bind_ok_inv _ _ _ _ H1) as (u2 & E2 & H2).
  destruct (bind_ok_inv _ _ _ _ H2) as (rgb & E3 & H3).
  destruct (bind_ok_inv _ _ _ _ H3) as (r & E4 & H4).
  destruct (bind_ok_inv _ _ _ _ H4) as ([fig ax] & E5 & H5).
  destruct (bind_ok_inv _ _ _ _ H5) as (v & E6 & H6).
  rewrite (bind_ok _ _ _ _ E1). cbn [trace].
  rewrite (bind_ok _ _ _ _ E2). cbn [trace].
  rewrite (bind_ok _ _ _ _ E3). cbn [trace].
  rewrite (bind_ok _ _ _ _ E4). cbn [trace].
  rewrite (bind_ok _ _ _ _ E5). cbn [trace].
  rewrite (bind_ok _ _ _ _ E6). cbn [trace].
  destruct (first_frame_ok _ _ _ _ E3) as (vc & resp & frame & code & t & Hff).
  rewrite Hff, (trace_extern_call_ok _ _ _ _ E6).
  exists vc, resp, frame, code, rgb, ax, v. do 4 eexists.
  etrans; [apply splice_trace | reflexivity].
Qed.

Lemma shown_frame_is_converted_first_frame_witness :
  exists (vc resp frame code rgb ax v : value) (t1 t2 t3 t4 : list (call * result value)),
    trace (video_display_cell Demo.colab shipped Demo.project) =
      (t1 ++ (Call "cv2.VideoCapture" [VStr (labelled_video_path shipped)] [], Ok vc) ::
             (Call ".read" [vc] [], Ok resp) :: t2 ++
             (Call "cv2.cvtColor" [frame; code] [], Ok rgb) :: t3 ++
             (Call ".imshow" [ax; rgb] [], Ok v) :: t4)%list.
Proof.
  apply shown_frame_is_converted_first_frame. reflexivity.
Defined.

(** ** Exceptions are not caught *)

Section Propagating.

Lemma propagating_silent {A} (m : M A) : (forall f, trace (m f) = []) -> propagating m.
Proof. intros H f. unfold uncaught. rewrite H. split; [left|intros _]; constructor. Qed.

Lemma propagating_ret {A} (a : A) : propagating (ret a).
Proof. now apply propagating_silent. Qed.

Lemma propagating_raise {A} (e : exn) : propagating (@raise A e).
Proof. now apply propagating_silent. Qed.

Lemma propagating_open_r path : propagating (open_r path).
Proof. apply propagating_silent. intros f. unfold open_r. now destruct (f !! path). Qed.

Lemma propagating_open_w path : propagating (open_w path).
Proof. now apply propagating_silent. Qed.

Lemma uncaught_single (fs' : gmap string string) (c : call) (r : result value) :
  uncaught (Outcome fs' [(c, r)] r) /\
  (is_ok r = true -> Forall returned [(c, r)]).
Proof.
  split.
  - destruct r as [v|e].
    + left. repeat constructor.
    + right. exists [], c, e. repeat split. constructor.
  - intros H. repeat constructor. exact H.
Qed.

Lemma propagating_extern_call L c : propagating (extern_call L c).
Proof. intros f. unfold extern_call. apply uncaught_single. Qed.

Lemma propagating_safe_load L stream : propagating (safe_load L stream).
Proof. intros f. unfold safe_load. apply uncaught_single. Qed.

Lemma propagating_dump L data stream : propagating (dump L data stream).
Proof. intros f. unfold dump. destruct stream; apply uncaught_single. Qed.

Lemma propagating_bind {A B} (m : M A) (k : A -> M B) :
  propagating m -> (forall a, propagating (k a)) -> propagating (bind m k).
Proof.
  intros Hm Hk f. unfold bind. destruct (Hm f) as [Hu Hok].
  destruct (res (m f)) as [a|e] eqn:E; cbn [fs trace res].
  - specialize (Hok eq_refl). destruct (Hk a (fs (m f))) as [Hu' Hok']. split.
    + destruct Hu' as [HF | (t & c & e & Ht & HF & Hr)].
      * left. apply Forall_app. now split.
      * right. exists (trace (m f) ++ t)%list, c, e. rewrite Ht, app_assoc.
        repeat split; [|exact Hr]. apply Forall_app. now split.
    + intros H. apply Forall_app. split; [exact Hok | now apply Hok'].
  - split; [|discriminate]. destruct Hu as [HF | (t & c & e' & Ht & HF & Hr)].
    + now left.
    + right. exists t, c, e'. repeat split; [exact Ht | exact HF | simpl; congruence].
Qed.

Lemma propagating_for {A} (l : list A) (body : A -> M unit) :
  (forall x, propagating (body x)) -> propagating (for_ l body).
Proof.
  intros H. induction l as [|x l IH]; simpl.
  - apply propagating_ret.
  - apply propagating_bind; [apply H | intros _; exact IH].
Qed.

Lemma propagating_run (cs : list (M unit)) : Forall propagating cs -> propagating (run cs).
Proof.
  induction 1 as [|c cs Hc _ IH]; simpl.
  - apply propagating_ret.
  - apply propagating_bind; [exact Hc | intros _; exact IH].
Qed.

End Propagating.

Ltac propagating_go :=
  repeat first
    [ apply propagating_ret
    | apply propagating_raise
    | apply propagating_open_r
    | apply propagating_open_w
    | apply propagating_safe_load
    | apply propagating_dump
    | apply propagating_extern_call
    | apply propagating_for; intros ?
    | apply propagating_bind; [|intros ?]
    | match goal with
      | |- propagating (match ?v with _ => _ end) => destruct v
      end
    | progress unfold method, attr, import_, from_import, shell, magic, print, format,
        setitem, iter, unpack2, with_, stmt, show_images, show_image, show_html,
        pose_cfg_rmw, first_frame_rgb ].

Lemma propagating_cells (L : library) (s : settings) : Forall propagating (cells L s).
Proof.
  unfold cells.
  repeat match goal with
         | |- Forall _ (_ :: _) => apply Forall_cons_2
         | |- Forall _ [] => apply Forall_nil_2
         end;
  unfold install_cell, gpu_check_cell, drive_cell, variables_cell, import_cell, path_cell,
    create_training_dataset_cell, pose_cfg_cell, train_network_cell, evaluate_network_cell,
    analyze_videos_cell, mpld3_cell, plot_trajectories_cell, plot_display_cell,
    create_labeled_video_cell, video_display_cell;
  propagating_go.
Qed.

(** X11.  No cell catches an exception.  In a run of the notebook, a
    library call that raises is the last call of the run and its exception is
    what the run ends with; all the calls before it returned.  So at most one
    call of a run raises, and nothing runs after it. *)
Theorem no_exception_is_caught (L : library) (s : settings) (f : gmap string string)
    (c : call) (e : exn) :
  (c, Raise e) ∈ trace (run_all L s f) ->
  exists t : list (call * result value),
    trace (run_all L s f) = (t ++ [(c, Raise e)])%list /\
    Forall returned t /\
    res (run_all L s f) = Raise e.
Proof.
  intros Hin.
  destruct (propagating_run _ (propagating_cells L s) f) as [[HF | (t & c' & e' & Ht & HF & Hr)] _];
    fold (run_all L s) in *.
  - rewrite Forall_forall in HF. specialize (HF _ Hin). discriminate HF.
  - rewrite Ht in Hin. apply elem_of_app in Hin as [Hin | Hin].
    + rewrite Forall_forall in HF. specialize (HF _ Hin). discriminate HF.
    + apply list_elem_of_singleton in Hin. injection Hin as -> ->.
      exists t. auto.
Qed.

Lemma no_exception_is_caught_witness :
  exists t : list (call * result value),
    trace (run_all Demo.stopped shipped Demo.project) =
      (t ++ [(train_network_call shipped, Raise KeyboardInterrupt)])%list /\
    Forall returned t /\
    res (run_all Demo.stopped shipped Demo.project) = Raise KeyboardInterrupt.
Proof.
  apply no_exception_is_caught.
  apply (list_elem_of_lookup_2 _ 26%nat). reflexivity.
Defined.

(** ** The message of the Drive cell *)

Lemma calls_bind_inv {A B} (m : M A) (k : A -> M B) f (c : call) :
  c ∈ calls (bind m k f) -> c ∉ calls (m f) ->
  exists a, res (m f) = Ok a /\ c ∈ calls (k a (fs (m f))).
Proof.
  unfold calls, bind. destruct (res (m f)) as [a|e]; cbn [trace]; intros H Hn.
  - exists a. split; [reflexivity|]. rewrite fmap_app in H.
    apply elem_of_app in H as [H|H]; [contradiction | exact H].
  - contradiction.
Qed.

Lemma trace_dropped_call L (c : call) f :
  trace ((extern_call L c ;;; ret tt) f) = [(c, (extern L c f).2)].
Proof. unfold bind, extern_call. cbn [res]. now destruct (extern L c f).2. Qed.

(** X12.  The Drive cell prints "Files copied successfully!" only after
    [drive.mount] and [shutil.copytree] have both returned, in that order and
    right before the message: when the copy raises (the destination folder
    exists from an earlier run of the cell, say) the message is not
    printed. *)
Theorem copied_message_after_copy (L : library) (f : gmap string string) :
  copied_message ∈ calls (drive_cell L f) ->
  exists (t : list (call * result value)) (v1 v2 : value) (r : result value),
    trace (drive_cell L f) =
      (t ++ [(mount_call, Ok v1); (copytree_call, Ok v2); (copied_message, r)])%list.
Proof.
  unfold drive_cell. intros H.
  destruct (calls_bind_inv _ _ _ _ H) as (u1 & E1 & H1).
  { unfold calls, from_import. rewrite trace_dropped_call.
    intros Hin. apply list_elem_of_singleton in Hin. discriminate Hin. }
  destruct (calls_bind_inv _ _ _ _ H1) as (u2 & E2 & H2).
  { unfold calls, import_. rewrite trace_dropped_call.
    intros Hin. apply list_elem_of_singleton in Hin. discriminate Hin. }
  destruct (calls_bind_inv _ _ _ _ H2) as (v1 & E3 & H3).
  { intros Hin. apply list_elem_of_singleton in Hin. discriminate Hin. }
  destruct (calls_bind_inv _ _ _ _ H3) as (v2 & E4 & H4).
  { intros Hin. apply list_elem_of_singleton in Hin. discriminate Hin. }
  rewrite (bind_ok _ _ _ _ E1). cbn [trace].
  rewrite (bind_ok _ _ _ _ E2). cbn [trace].
  rewrite (bind_ok _ _ _ _ E3). cbn [trace].
  rewrite (bind_ok _ _ _ _ E4). cbn [trace].
  rewrite (trace_extern_call_ok _ _ _ _ E3), (trace_extern_call_ok _ _ _ _ E4).
  unfold print. rewrite trace_dropped_call.
  eexists (_ ++ _)%list, v1, v2, _. rewrite <- app_assoc. reflexivity.
Qed.

Lemma copied_message_after_copy_witness :
  exists (t : list (call * result value)) (v1 v2 : value) (r : result value),
    trace (drive_cell Demo.colab Demo.project) =
      (t ++ [(mount_call, Ok v1); (copytree_call, Ok v2); (copied_message, r)])%list.
Proof.
  apply copied_message_after_copy.
  apply (list_elem_of_lookup_2 _ 4%nat). reflexivity.
Defined.

(** ** The labelled video that is opened *)

Lemma cells_video_path (L : library) (s : settings) :
  Forall (emits (fun c => fn c = "cv2.VideoCapture" ->
            args c =
              [VStr ("/content/behavior-and-calcium-imaging-workshop/data/behavior-videos/day0croppedshortdownsampledDLC_resnet50_ss_vs_sscwJan30shuffle" +:+
                     pretty (shuffle s) +:+ "_100100_p60_labeled.mp4")]))
         (cells L s).
Proof. cells_emit name_side. Qed.

Lemma cells_labeled_videotype (L : library) (s : settings) :
  Forall (emits (fun c => fn c = "deeplabcut.create_labeled_video" ->
                          kwarg "videotype" c = Some (VStr (VideoType s))))
         (cells L s).
Proof. cells_emit name_side. Qed.

(** X13.  In every run, each call of cv2.VideoCapture opens the path
    .../day0croppedshortdownsampledDLC_resnet50_ss_vs_sscwJan30shuffle{shuffle}_100100_p60_labeled.mp4:
    the video that the last cell opens is named by the shuffle alone (an
    integer, as the notebook sets it), so that two settings give the same
    path exactly when they have the same shuffle.  The path ends in mp4
    whatever [VideoType] is, while the create_labeled_video call of the same
    run is given [VideoType] as its videotype. *)
Theorem labelled_video_named_by_shuffle (L : library) (s : settings)
    (f : gmap string string) :
  Forall (fun c => fn c = "cv2.VideoCapture" ->
            args c =
              [VStr ("/content/behavior-and-calcium-imaging-workshop/data/behavior-videos/day0croppedshortdownsampledDLC_resnet50_ss_vs_sscwJan30shuffle" +:+
                     pretty (shuffle s) +:+ "_100100_p60_labeled.mp4")])
         (calls (run_all L s f)) /\
  Forall (fun c => fn c = "deeplabcut.create_labeled_video" ->
                   kwarg "videotype" c = Some (VStr (VideoType s)))
         (calls (run_all L s f)) /\
  (forall s' : settings,
     labelled_video_path s' = labelled_video_path s <-> shuffle s' = shuffle s).
Proof.
  repeat apply conj.
  - apply (emits_run _ _ (cells_video_path L s)).
  - apply (emits_run _ _ (cells_labeled_videotype L s)).
  - intros s'. unfold labelled_video_path. split.
    + intros H. apply append_inj_l in H. apply append_inj_r in H.
      now apply (inj pretty) in H.
    + now intros ->.
Qed.
